(** * zoneawareness: a CoreDNS plugin that puts same-zone addresses first

    A shallow embedding of the plugin's request path ([ServeDNS],
    [extractRRIP], [ipMatchesCIDRs], [writeFinalResponse]) and of its
    start-up path ([setup], [getConfigFromIMDSv2]), followed by the
    properties of the zone-membership engine.

    Conventions of the embedding:
    - a Go byte is a [Z] in [0, 255]; the bit operation [&] is [Z.land];
    - a [net.IP] / [net.IPMask] is the list of its bytes; where the Go code
      tells a nil slice from a non-nil one ([ip != nil]) the value is an
      [option];
    - [map[string]*Zone] is a [gmap string Zone]: every pointer stored by
      [setup] and by the tests is a fresh [&Zone{}], so a stored pointer is
      never nil, and a missing key yields the nil pointer whose field access
      panics;
    - a Go panic is an explicit outcome, next to the normal return;
    - the Prometheus instruments are threaded as an explicit state. *)

From Stdlib Require Import ZArith Ascii String List Bool Lia Permutation.
From stdpp Require Import base option gmap strings list fin_maps.

Import ListNotations.
Local Open Scope string_scope.
Local Open Scope Z_scope.
Local Open Scope list_scope.

(** ** Package [net]: addresses, networks and [IPNet.Contains] *)

Module net.

Definition IPv4len : nat := 4.
Definition IPv6len : nat := 16.

(** [net.IP] and [net.IPMask]: byte slices. *)
Definition IP := list Z.
Definition IPMask := list Z.

Record IPNet := { IPNet_IP : IP; IPNet_Mask : IPMask }.

Definition v4InV6Prefix : IP := [0; 0; 0; 0; 0; 0; 0; 0; 0; 0; 255; 255].

(** [net.IPv4(a, b, c, d)]: the 16-byte form of an IPv4 address. *)
Definition IPv4 (a b c d : Z) : IP := v4InV6Prefix ++ [a; b; c; d].

Definition isZeros (p : IP) : bool := forallb (Z.eqb 0) p.

(** [ip.To4()]: the 4-byte form, or nil ([None]) when [ip] is not IPv4. *)
Definition To4 (ip : IP) : option IP :=
  if Nat.eqb (length ip) IPv4len then Some ip
  else if Nat.eqb (length ip) IPv6len
          && isZeros (take 10 ip)
          && (nth 10 ip 0 =? 255) && (nth 11 ip 0 =? 255)
       then Some (drop 12 ip)
       else None.

(** [networkNumberAndMask(n)]; the pair of nil slices is [([], [])]. *)
Definition networkNumberAndMask (n : IPNet) : IP * IPMask :=
  let ip :=
    match To4 (IPNet_IP n) with
    | Some x => Some x
    | None => if Nat.eqb (length (IPNet_IP n)) IPv6len
              then Some (IPNet_IP n) else None
    end in
  match ip with
  | None => ([], [])
  | Some ip =>
      let m := IPNet_Mask n in
      if Nat.eqb (length m) IPv4len then
        if Nat.eqb (length ip) IPv4len then (ip, m) else ([], [])
      else if Nat.eqb (length m) IPv6len then
        if Nat.eqb (length ip) IPv4len then (ip, drop 12 m) else (ip, m)
      else ([], [])
  end.

(** [IPNet.Contains]: the method [Contains(ip)] of a network [n]. *)
Definition Contains (n : IPNet) (ip : IP) : bool :=
  let '(nn, m) := networkNumberAndMask n in
  let ip := match To4 ip with Some x => x | None => ip end in
  let l := length ip in
  if negb (Nat.eqb l (length nn)) then false
  else forallb
         (fun i => Z.land (nth i nn 0) (nth i m 0)
                   =? Z.land (nth i ip 0) (nth i m 0))
         (seq 0 l).

(** [net.CIDRMask(ones, bits)], for [bits] 32 or 128 and [ones <= bits]
    (the cases in which the Go function does not return nil). *)
Definition CIDRMask (ones bits : nat) : IPMask :=
  map (fun i : nat =>
         let n := (ones - 8 * i)%nat in
         if Nat.leb 8 n then 255
         else Z.land (Z.lnot (Z.shiftr 255 (Z.of_nat n))) 255)
      (seq 0 (bits / 8)).

(** [ip.Mask(mask)] for an address and a mask of the same length. *)
Definition Mask (ip : IP) (mask : IPMask) : IP :=
  map (fun i => Z.land (nth i ip 0) (nth i mask 0)) (seq 0 (length ip)).

End net.

(** ** Package [dns] (miekg/dns): the parts of a message the plugin reads *)

Module dns.

Definition RcodeSuccess : Z := 0.
Definition RcodeServerFailure : Z := 2.
Definition TypeA : Z := 1.
Definition TypeAAAA : Z := 28.
Definition TypeCNAME : Z := 5.
Definition ClassINET : Z := 1.

Record RR_Header := { Name : string; Rrtype : Z; Class : Z; Ttl : Z }.

(** [dns.RR]: the two address-bearing record types and every other one.
    The address field of [*dns.A] / [*dns.AAAA] is a [net.IP] that may be
    nil (a record unpacked with empty rdata). *)
Inductive RR :=
| A (Hdr : RR_Header) (a : option net.IP)
| AAAA (Hdr : RR_Header) (aaaa : option net.IP)
| Other (Hdr : RR_Header) (rdata : string).

Record Question := { QName : string; Qtype : Z; Qclass : Z }.

Record Msg := {
  Id : Z;
  Response : bool;
  Rcode : Z;
  Question_ : list Question;
  Answer : list RR;
  Ns : list RR;
  Extra : list RR
}.

(** [pw.msg = pw.msg.Copy(); pw.msg.Answer = answers]. *)
Definition withAnswer (m : Msg) (answers : list RR) : Msg :=
  {| Id := Id m; Response := Response m; Rcode := Rcode m;
     Question_ := Question_ m; Answer := answers;
     Ns := Ns m; Extra := Extra m |}.

End dns.

(** ** zoneawareness.go *)

Definition Error := string.

Record Zone := { CIDRs : list net.IPNet }.

(** What the next handler of the chain does with a request: the messages it
    writes to the writer it is given, in order, and what it returns. *)
Record HandlerResult := {
  hr_writes : list dns.Msg;
  hr_rcode : Z;
  hr_err : option Error
}.

Definition Handler := dns.Msg -> HandlerResult.

Record Zoneawareness := {
  Next : option Handler;
  Zones : gmap string Zone;
  currentAvailabilityZoneId : string;
  HasSynced : bool
}.

(** [extractRRIP]: the address of an A or AAAA record, nil otherwise. *)
Definition extractRRIP (rr : dns.RR) : option net.IP :=
  match rr with
  | dns.A _ a => a
  | dns.AAAA _ aaaa => aaaa
  | dns.Other _ _ => None
  end.

(** [ipMatchesCIDRs]: the loop over [cidrs], returning at the first hit. *)
Fixpoint ipMatchesCIDRs (ip : net.IP) (cidrs : list net.IPNet) : bool :=
  match cidrs with
  | [] => false
  | cidr :: rest =>
      if net.Contains cidr ip then true else ipMatchesCIDRs ip rest
  end.

(** *** metrics.go: the three instruments, each a vector labelled by server

    A counter child that was never touched reads 0.  The counters hold
    whole numbers (the code adds 1 and [float64(len(...))]), so they are
    kept in [Z]; the histogram keeps the list of its observations. *)

Definition Duration := Z.

Record Metrics := {
  reorderedQueriesCount : gmap string Z;
  reorderCount : gmap string Z;
  reorderLatency : gmap string (list Duration)
}.

Definition counterValue (c : gmap string Z) (server : string) : Z :=
  default 0 (c !! server).

Definition observations (h : gmap string (list Duration)) (server : string)
  : list Duration :=
  default [] (h !! server).

(** [c.WithLabelValues(server).Add(v)]; [Inc()] is [Add(1)]. *)
Definition counterAdd (c : gmap string Z) (server : string) (v : Z)
  : gmap string Z :=
  <[server := counterValue c server + v]> c.

(** [h.WithLabelValues(server).Observe(d)]. *)
Definition histogramObserve (h : gmap string (list Duration))
    (server : string) (d : Duration) : gmap string (list Duration) :=
  <[server := observations h server ++ [d]]> h.

Definition observeLatency (ms : Metrics) (server : string) (d : Duration)
  : Metrics :=
  {| reorderedQueriesCount := reorderedQueriesCount ms;
     reorderCount := reorderCount ms;
     reorderLatency := histogramObserve (reorderLatency ms) server d |}.

Definition incReorderedQueries (ms : Metrics) (server : string) : Metrics :=
  {| reorderedQueriesCount := counterAdd (reorderedQueriesCount ms) server 1;
     reorderCount := reorderCount ms;
     reorderLatency := reorderLatency ms |}.

Definition addReorderCount (ms : Metrics) (server : string) (v : Z)
  : Metrics :=
  {| reorderedQueriesCount := reorderedQueriesCount ms;
     reorderCount := counterAdd (reorderCount ms) server v;
     reorderLatency := reorderLatency ms |}.

(** *** The response writers *)

(** The client-side [dns.ResponseWriter]: what its [WriteMsg] answers. *)
Record ResponseWriter := { WriteMsg : dns.Msg -> option Error }.

(** [ResponsePrinter]: wraps the writer and keeps the last message written
    to it; its [WriteMsg] stores the message and returns nil. *)
Record ResponsePrinter := { msg : option dns.Msg }.

Definition NewResponsePrinter : ResponsePrinter := {| msg := None |}.

Definition ResponsePrinter_WriteMsg (r : ResponsePrinter) (res : dns.Msg)
  : ResponsePrinter :=
  {| msg := Some res |}.

(** [plugin.NextOrFailure], run against the [ResponsePrinter]. *)
Definition NextOrFailure (name : string) (next : option Handler)
    (pw : ResponsePrinter) (r : dns.Msg)
  : ResponsePrinter * Z * option Error :=
  match next with
  | Some h =>
      let res := h r in
      (fold_left ResponsePrinter_WriteMsg (hr_writes res) pw,
       hr_rcode res, hr_err res)
  | None =>
      (pw, dns.RcodeServerFailure,
       Some ("plugin/" ++ name ++ ": no next plugin found")%string)
  end.

(** *** ServeDNS *)

Inductive Panic :=
| NilPointerDereference   (* [e.Zones[id].CIDRs] on a missing entry *)
| IndexOutOfRange.        (* [pw.msg.Question[0]] on an empty section *)

(** How a call of [ServeDNS] ends: it returns [(rcode, err)] after handing
    [sent] (if any) to the client's writer, or it panics; either way the
    instruments are left in the state [ms]. *)
Inductive Outcome :=
| Returned (rcode : Z) (err : option Error) (sent : option dns.Msg)
           (ms : Metrics)
| Panicked (p : Panic) (ms : Metrics).

(** What [ServeDNS] reads from its context and from the clock: the server
    label of the metrics, and the time spent in the classification loop
    ([time.Since(reorderTimeStart)]). *)
Record Env := { server : string; reorderElapsed : Duration }.

Definition Name : string := "zoneawareness".

(** [writeFinalResponse]. *)
Definition writeFinalResponse (w : ResponseWriter) (m : dns.Msg)
    (ms : Metrics) : Outcome :=
  match WriteMsg w m with
  | Some err => Returned dns.RcodeServerFailure (Some err) (Some m) ms
  | None => Returned dns.RcodeSuccess None (Some m) ms
  end.

(** The [for _, rr := range pw.msg.Answer] loop: [preferred] and [other]
    are the two slices built so far.  The right operand of [&&] is only
    evaluated for a record with an address; it panics when the current zone
    has no entry in [e.Zones]. *)
Fixpoint classify (e : Zoneawareness) (answers : list dns.RR)
    (preferred other : list dns.RR) : option (list dns.RR * list dns.RR) :=
  match answers with
  | [] => Some (preferred, other)
  | rr :: rest =>
      match extractRRIP rr with
      | Some ip =>
          match Zones e !! currentAvailabilityZoneId e with
          | None => None
          | Some zone =>
              if ipMatchesCIDRs ip (CIDRs zone)
              then classify e rest (preferred ++ [rr]) other
              else classify e rest preferred (other ++ [rr])
          end
      | None => classify e rest preferred (other ++ [rr])
      end
  end.

Definition ServeDNS (e : Zoneawareness) (env : Env) (w : ResponseWriter)
    (r : dns.Msg) (ms : Metrics) : Outcome :=
  let '(pw, rcode, err) := NextOrFailure Name (Next e) NewResponsePrinter r in
  match err with
  | Some _ => Returned rcode err None ms
  | None =>
      match msg pw with
      | None => Returned rcode None None ms
      | Some m =>
          if negb (dns.Rcode m =? dns.RcodeSuccess) then
            writeFinalResponse w m ms
          else if Nat.leb (length (dns.Answer m)) 1 then
            writeFinalResponse w m ms
          else
            match classify e (dns.Answer m) [] [] with
            | None => Panicked NilPointerDereference ms
            | Some (preferredAnswers, otherAnswers) =>
                let ms := observeLatency ms (server env) (reorderElapsed env) in
                if Nat.eqb (length preferredAnswers) 0 then
                  writeFinalResponse w m ms
                else
                  let m' := dns.withAnswer m (preferredAnswers ++ otherAnswers) in
                  let ms := incReorderedQueries ms (server env) in
                  let ms := addReorderCount ms (server env)
                              (Z.of_nat (length preferredAnswers)) in
                  match dns.Question_ m' with
                  | [] => Panicked IndexOutOfRange ms
                  | _ :: _ => writeFinalResponse w m' ms
                  end
            end
      end
  end.

(** ** Package [regexp]: the fragment used by [awsZoneIDPattern] *)

Module regexp.

Inductive Regexp :=
| NoMatch
| EmptyMatch
| Literal (c : ascii)
| CharClass (lo hi : ascii)
| Concat (r1 r2 : Regexp)
| Alternate (r1 r2 : Regexp).

(** [r?] *)
Definition Quest (r : Regexp) : Regexp := Alternate r EmptyMatch.

(** [r{min,max}], for [min <= max]. *)
Fixpoint Repeat (r : Regexp) (min max : nat) : Regexp :=
  match max with
  | O => EmptyMatch
  | S max' =>
      match min with
      | O => Quest (Concat r (Repeat r 0 max'))
      | S min' => Concat r (Repeat r min' max')
      end
  end.

(** A literal string. *)
Fixpoint Lit (s : string) : Regexp :=
  match s with
  | EmptyString => EmptyMatch
  | String c s' => Concat (Literal c) (Lit s')
  end.

Fixpoint nullable (r : Regexp) : bool :=
  match r with
  | NoMatch => false
  | EmptyMatch => true
  | Literal _ => false
  | CharClass _ _ => false
  | Concat r1 r2 => nullable r1 && nullable r2
  | Alternate r1 r2 => nullable r1 || nullable r2
  end.

Definition inClass (lo hi c : ascii) : bool :=
  (N.leb (N_of_ascii lo) (N_of_ascii c))
  && (N.leb (N_of_ascii c) (N_of_ascii hi)).

(** The derivative of [r] by the byte [c]. *)
Fixpoint derive (c : ascii) (r : Regexp) : Regexp :=
  match r with
  | NoMatch => NoMatch
  | EmptyMatch => NoMatch
  | Literal c' => if Ascii.eqb c c' then EmptyMatch else NoMatch
  | CharClass lo hi => if inClass lo hi c then EmptyMatch else NoMatch
  | Concat r1 r2 =>
      if nullable r1
      then Alternate (Concat (derive c r1) r2) (derive c r2)
      else Concat (derive c r1) r2
  | Alternate r1 r2 => Alternate (derive c r1) (derive c r2)
  end.

Fixpoint matches (r : Regexp) (s : string) : bool :=
  match s with
  | EmptyString => nullable r
  | String c s' => matches (derive c r) s'
  end.

(** [re.MatchString(s)] for a pattern written [^r$]: without the
    multi-line flag the two anchors are the two ends of the text, so the
    whole of [s] has to match [r]. *)
Definition MatchString (r : Regexp) (s : string) : bool := matches r s.

End regexp.

(** ** Packages [context] and [time]: deadlines *)

Module time.
Definition Second : Duration := 1000000000.
End time.

Module context.

Inductive Context :=
| Background
| WithTimeout (parent : Context) (timeout : Duration).

(** The time a call under [ctx] may take before [ctx] is cancelled; [None]
    when [ctx] carries no deadline. *)
Fixpoint Deadline (ctx : Context) : option Duration :=
  match ctx with
  | Background => None
  | WithTimeout parent timeout =>
      match Deadline parent with
      | None => Some timeout
      | Some d => Some (Z.min d timeout)
      end
  end.

End context.

(** ** setup.go *)

(** [^[a-z]{2,4}[0-9](-[a-z]{3}[0-9])?-az[0-9]$] *)
Definition awsZoneIDPattern : regexp.Regexp :=
  let lower := regexp.CharClass "a" "z" in
  let digit := regexp.CharClass "0" "9" in
  regexp.Concat (regexp.Repeat lower 2 4)
   (regexp.Concat digit
     (regexp.Concat
        (regexp.Quest
           (regexp.Concat (regexp.Literal "-")
              (regexp.Concat (regexp.Repeat lower 3 3) digit)))
        (regexp.Concat (regexp.Lit "-az") digit))).

Definition pluginName : string := "zoneawareness".

(** [types.Subnet] of the EC2 SDK: the fields [setup] reads.  A [*string]
    is an [option string]; each element of the association set is its
    [Ipv6CidrBlock]. *)
Record Subnet := {
  SubnetId : string;
  CidrBlock : option string;
  Ipv6CidrBlockAssociationSet : list (option string)
}.

(** The services behind the AWS SDK, as seen by the two lookups: each call
    receives the context it is made under. *)
Inductive MetadataOutput :=
| GetMetadataError (err : Error)
| Content (readAll : Error + string).

Record AWS := {
  LoadDefaultConfig : context.Context -> option Error;
  GetMetadata : context.Context -> string -> MetadataOutput;
  DescribeSubnets : context.Context -> string -> string -> Error + list Subnet
}.

Definition Errorf (prefix : string) (err : Error) : Error :=
  (prefix ++ ": " ++ err)%string.

Definition imdsTimeout : Duration := 2 * time.Second.

(** What [setup] leaves behind: the plugins registered with the server
    block ([dnsserver.GetConfig(c).Plugin]), each a function of the next
    handler, and the value [l] they close over.  [setup] itself always
    returns a nil error. *)
Record SetupResult := {
  l_final : Zoneawareness;
  Plugin : list (option Handler -> Zoneawareness)
}.

Section Setup.

(** [net.ParseCIDR]: the network of a CIDR text, [None] on a parse error. *)
Variable ParseCIDR : string -> option net.IPNet.
(** [strings.TrimSpace]. *)
Variable TrimSpace : string -> string.

(** [getConfigFromIMDSv2]. *)
Definition getConfigFromIMDSv2 (aws : AWS) (_ : unit)
  : string * string * option Error :=
  let ctx := context.WithTimeout context.Background imdsTimeout in
  match LoadDefaultConfig aws ctx with
  | Some err => ("", "", Some (Errorf "failed to load AWS SDK config" err))
  | None =>
      match GetMetadata aws ctx "placement/availability-zone-id" with
      | GetMetadataError err =>
          ("", "", Some (Errorf "failed to get AZ ID from IMDS (instance may not be EC2 or IMDSv2 disabled/misconfigured)" err))
      | Content (inl err) =>
          ("", "", Some (Errorf "failed to read AZ ID from IMDS response body" err))
      | Content (inr azIDBytes) =>
          let azID := TrimSpace azIDBytes in
          if negb (regexp.MatchString awsZoneIDPattern azID) then
            ("", "", Some ("fetched AZ ID '" ++ azID ++ "' from IMDS has an invalid format")%string)
          else
            match GetMetadata aws ctx "placement/region" with
            | GetMetadataError err =>
                ("", "", Some (Errorf "failed to get region from IMDS" err))
            | Content (inl err) =>
                ("", "", Some (Errorf "failed to read region from IMDS response body" err))
            | Content (inr regionBytes) =>
                (azID, TrimSpace regionBytes, None)
            end
      end
  end.

(** [getSubnetsFromEC2]. *)
Definition getSubnetsFromEC2 (aws : AWS) (ctx : context.Context)
    (azID region : string) : list Subnet * option Error :=
  match LoadDefaultConfig aws ctx with
  | Some err => ([], Some (Errorf "failed to load AWS SDK config" err))
  | None =>
      match DescribeSubnets aws ctx region azID with
      | inl err =>
          ([], Some (Errorf ("failed to describe subnets for AZ ID '" ++ azID ++ "'") err))
      | inr subnets => (subnets, None)
      end
  end.

Definition setZoneId (l : Zoneawareness) (id : string) : Zoneawareness :=
  {| Next := Next l; Zones := Zones l;
     currentAvailabilityZoneId := id; HasSynced := HasSynced l |}.

(** The four lines that add one parsed range to a zone, creating the zone
    on its first range:
    [zone, exists := l.Zones[name]; if !exists { zone = &Zone{};
     l.Zones[name] = zone }; zone.CIDRs = append(zone.CIDRs, cidr)]. *)
Definition appendCIDR (l : Zoneawareness) (zoneName : string)
    (cidr : net.IPNet) : Zoneawareness :=
  let zone := match Zones l !! zoneName with
              | Some zone => zone
              | None => {| CIDRs := [] |}
              end in
  {| Next := Next l;
     Zones := <[zoneName := {| CIDRs := CIDRs zone ++ [cidr] |}]> (Zones l);
     currentAvailabilityZoneId := currentAvailabilityZoneId l;
     HasSynced := HasSynced l |}.

(** One CIDR block of a discovered subnet (the IPv4 block and each IPv6
    association run the same steps and differ in their log lines only). *)
Definition addSubnetCIDR (l : Zoneawareness) (block : option string)
  : Zoneawareness :=
  match block with
  | Some cidrStr =>
      if String.eqb cidrStr "" then l
      else match ParseCIDR cidrStr with
           | None => l
           | Some parsedCIDR =>
               appendCIDR l (currentAvailabilityZoneId l) parsedCIDR
           end
  | None => l
  end.

(** The body of [for _, subnet := range subnets]. *)
Definition addSubnet (l : Zoneawareness) (subnet : Subnet) : Zoneawareness :=
  fold_left addSubnetCIDR (Ipv6CidrBlockAssociationSet subnet)
            (addSubnetCIDR l (CidrBlock subnet)).

(** Lines 56-112: the IMDS lookup and, when it succeeds, the EC2 lookup. *)
Definition discover
    (getConfigFromIMDSv2Func : unit -> string * string * option Error)
    (getSubnetsFromEC2Func :
       context.Context -> string -> string -> list Subnet * option Error)
    (l : Zoneawareness) : Zoneawareness :=
  let '(instanceAvailabilityZoneId, instanceRegion, err) :=
    getConfigFromIMDSv2Func tt in
  match err with
  | Some _ => l
  | None =>
      if negb (String.eqb instanceAvailabilityZoneId "")
         && negb (String.eqb instanceRegion "") then
        let l := setZoneId l instanceAvailabilityZoneId in
        let '(subnets, err) :=
          getSubnetsFromEC2Func context.Background
            (currentAvailabilityZoneId l) instanceRegion in
        match err with
        | Some _ => l
        | None => fold_left addSubnet subnets l
        end
      else l
  end.

(** Lines 114-120: the [AWS_ZONE_ID] environment variable. *)
Definition envOverride (Getenv : string -> string) (l : Zoneawareness)
  : Zoneawareness :=
  if String.eqb (currentAvailabilityZoneId l) "" then
    if regexp.MatchString awsZoneIDPattern (Getenv "AWS_ZONE_ID")
    then setZoneId l (Getenv "AWS_ZONE_ID")
    else l
  else l.

(** One CIDR argument of a Corefile statement. *)
Definition addStaticCIDR (zoneName : string) (l : Zoneawareness)
    (cidrStr : string) : Zoneawareness :=
  match ParseCIDR cidrStr with
  | None => l
  | Some cidr => appendCIDR l zoneName cidr
  end.

(** The body of [for c.Next()], on [args := c.RemainingArgs()]. *)
Definition processStatement (l : Zoneawareness) (args : list string)
  : Zoneawareness :=
  if Nat.leb 2 (length args) then
    match args with
    | zoneName :: cidrArgs =>
        if negb (String.eqb zoneName (currentAvailabilityZoneId l)) then l
        else if negb (regexp.MatchString awsZoneIDPattern zoneName) then l
        else fold_left (addStaticCIDR zoneName) cidrArgs l
    | [] => l
    end
  else l.

(** The plugin handed to [AddPlugin]: the closure sets [HasSynced] and
    [Next] on [l] and returns it. *)
Definition pluginOf (l : Zoneawareness) (next : option Handler)
  : Zoneawareness :=
  {| Next := next; Zones := Zones l;
     currentAvailabilityZoneId := currentAvailabilityZoneId l;
     HasSynced := true |}.

(** Lines 170-184: add the plugin to the chain, or not. *)
Definition install (l : Zoneawareness) : SetupResult :=
  match Zones l !! currentAvailabilityZoneId l with
  | Some currentZoneData =>
      if Nat.ltb 0 (length (CIDRs currentZoneData))
      then {| l_final := l; Plugin := [pluginOf l] |}
      else {| l_final := l; Plugin := [] |}
  | None => {| l_final := l; Plugin := [] |}
  end.

Definition l_init : Zoneawareness :=
  {| Next := None; Zones := ∅; currentAvailabilityZoneId := "";
     HasSynced := false |}.

(** [setup]; [corefile] lists the arguments of each occurrence of the
    directive, as [c.Next()] / [c.RemainingArgs()] deliver them. *)
Definition setup
    (getConfigFromIMDSv2Func : unit -> string * string * option Error)
    (getSubnetsFromEC2Func :
       context.Context -> string -> string -> list Subnet * option Error)
    (Getenv : string -> string)
    (corefile : list (list string)) : SetupResult :=
  let l := discover getConfigFromIMDSv2Func getSubnetsFromEC2Func l_init in
  let l := envOverride Getenv l in
  if String.eqb (currentAvailabilityZoneId l) "" then
    {| l_final := l; Plugin := [] |}
  else
    install (fold_left processStatement corefile l).

End Setup.

(** ** [net.ParseCIDR] on IPv4 texts

    [setup] is stated over any [ParseCIDR].  To run it on the Corefile
    lines of the tests, this is the IPv4 half of [net.ParseCIDR]: a dotted
    quad (decimal octets without leading zeros, each at most 255), a slash
    and a decimal prefix length of at most 32.  Every other text, IPv6
    included, is an error here. *)

Module ipv4text.

Definition isDigit (c : ascii) : bool := regexp.inClass "0" "9" c.

Definition digit (c : ascii) : nat := N.to_nat (N_of_ascii c) - 48.

(** [strings.Cut(s, sep)] for a one-byte separator. *)
Fixpoint Cut (s : string) (sep : ascii) : option (string * string) :=
  match s with
  | EmptyString => None
  | String c s' =>
      if Ascii.eqb c sep then Some (EmptyString, s')
      else match Cut s' sep with
           | Some (before, after) => Some (String c before, after)
           | None => None
           end
  end.

(** The octets of a dotted quad, as [parseIPv4Fields] reads them: [val] and
    [digLen] are the value and the digit count of the current octet,
    [fields] the octets completed so far. *)
Fixpoint parseIPv4Fields (s : string) (val digLen : nat) (fields : list Z)
  : option (list Z) :=
  match s with
  | EmptyString =>
      if Nat.eqb digLen 0 then None
      else if Nat.eqb (length fields) 3
           then Some (fields ++ [Z.of_nat val]) else None
  | String c s' =>
      if isDigit c then
        if Nat.eqb digLen 1 && Nat.eqb val 0 then None
        else
          let val' := (val * 10 + digit c)%nat in
          if Nat.ltb 255 val' then None
          else parseIPv4Fields s' val' (S digLen) fields
      else if Ascii.eqb c "." then
        if Nat.eqb digLen 0 then None
        else if Nat.eqb (length fields) 3 then None
        else parseIPv4Fields s' 0 0 (fields ++ [Z.of_nat val])
      else None
  end.

(** [dtoi] on a text that has to be decimal digits throughout. *)
Fixpoint dtoi (s : string) (n : Z) : option Z :=
  match s with
  | EmptyString => Some n
  | String c s' =>
      if isDigit c then
        let n' := n * 10 + Z.of_nat (digit c) in
        if 16777215 <=? n' then None else dtoi s' n'
      else None
  end.

Definition ParseCIDR (s : string) : option net.IPNet :=
  match Cut s "/" with
  | None => None
  | Some (addr, mask) =>
      match parseIPv4Fields addr 0 0 [] with
      | None => None
      | Some ip =>
          if String.eqb mask "" then None
          else match dtoi mask 0 with
               | None => None
               | Some n =>
                   if 32 <? n then None
                   else
                     let m := net.CIDRMask (Z.to_nat n) 32 in
                     Some {| net.IPNet_IP := net.Mask ip m;
                             net.IPNet_Mask := m |}
               end
      end
  end.

End ipv4text.

(** * Properties *)

(** ** Vocabulary of the statements *)

(** The classification test of the loop, against a given table:
    [ip != nil && ipMatchesCIDRs(ip, cidrs)]. *)
Definition isPreferred (cidrs : list net.IPNet) (rr : dns.RR) : bool :=
  match extractRRIP rr with
  | Some ip => ipMatchesCIDRs ip cidrs
  | None => false
  end.

Definition isOther (cidrs : list net.IPNet) (rr : dns.RR) : bool :=
  negb (isPreferred cidrs rr).

(** The current zone's table, when the zone has an entry. *)
Definition currentCIDRs (e : Zoneawareness) : option (list net.IPNet) :=
  CIDRs <$> (Zones e !! currentAvailabilityZoneId e).

(** The record [rr] is classified "other" by [e]: it carries no address, or
    its address is tested against the current zone's table and matches no
    range. *)
Definition classifiedOther (e : Zoneawareness) (rr : dns.RR) : Prop :=
  match extractRRIP rr with
  | None => True
  | Some ip => exists cidrs,
      currentCIDRs e = Some cidrs /\ ipMatchesCIDRs ip cidrs = false
  end.

(** The record [rr] is classified "preferred" by [e]. *)
Definition classifiedPreferred (e : Zoneawareness) (rr : dns.RR) : Prop :=
  exists ip cidrs,
    extractRRIP rr = Some ip /\ currentCIDRs e = Some cidrs
    /\ ipMatchesCIDRs ip cidrs = true.

(** The next handler answered the request [r] with the response [m] (the
    last message it wrote) and returned [rcode] without an error. *)
Definition responds (e : Zoneawareness) (r m : dns.Msg) (rcode : Z) : Prop :=
  NextOrFailure Name (Next e) NewResponsePrinter r
  = ({| msg := Some m |}, rcode, None).

Definition metricsOf (o : Outcome) : Metrics :=
  match o with
  | Returned _ _ _ ms => ms
  | Panicked _ ms => ms
  end.

Definition sentOf (o : Outcome) : option dns.Msg :=
  match o with
  | Returned _ _ sent _ => sent
  | Panicked _ _ => None
  end.

(** The reorder step on its own: the classification loop followed by the
    concatenation [append(preferredAnswers, otherAnswers...)]. *)
Definition reorder (e : Zoneawareness) (answers : list dns.RR)
  : option (list dns.RR) :=
  match classify e answers [] [] with
  | Some (preferredAnswers, otherAnswers) =>
      Some (preferredAnswers ++ otherAnswers)
  | None => None
  end.

(** The mock handler of the tests: writes [m] and returns success. *)
Definition mockHandler (m : dns.Msg) : Handler :=
  fun _ => {| hr_writes := [m]; hr_rcode := dns.RcodeSuccess;
              hr_err := None |}.

Definition noMetrics : Metrics :=
  {| reorderedQueriesCount := ∅; reorderCount := ∅; reorderLatency := ∅ |}.

(** ** The values of the test suite *)

Module fixtures.

Definition hdr (name : string) (rrtype : Z) : dns.RR_Header :=
  {| dns.Name := name; dns.Rrtype := rrtype; dns.Class := dns.ClassINET;
     dns.Ttl := 300 |}.

(** [test.A("name 300 IN A a.b.c.d")]. *)
Definition A (name : string) (a b c d : Z) : dns.RR :=
  dns.A (hdr name dns.TypeA) (Some (net.IPv4 a b c d)).

(** A CNAME record: no address to extract. *)
Definition CNAME (name target : string) : dns.RR :=
  dns.Other (hdr name dns.TypeCNAME) target.

(** [req.SetQuestion(name, qtype)]. *)
Definition request (name : string) (qtype : Z) : dns.Msg :=
  {| dns.Id := 1; dns.Response := false; dns.Rcode := dns.RcodeSuccess;
     dns.Question_ := [{| dns.QName := name; dns.Qtype := qtype;
                          dns.Qclass := dns.ClassINET |}];
     dns.Answer := []; dns.Ns := []; dns.Extra := [] |}.

(** [m.SetReply(req); m.Answer = answers]. *)
Definition reply (req : dns.Msg) (answers : list dns.RR) : dns.Msg :=
  {| dns.Id := dns.Id req; dns.Response := true;
     dns.Rcode := dns.RcodeSuccess;
     dns.Question_ := dns.Question_ req;
     dns.Answer := answers; dns.Ns := []; dns.Extra := [] |}.

(** [m.SetRcode(req, rcode)]. *)
Definition replyRcode (req : dns.Msg) (rcode : Z) (answers : list dns.RR)
  : dns.Msg :=
  {| dns.Id := dns.Id req; dns.Response := true; dns.Rcode := rcode;
     dns.Question_ := dns.Question_ req;
     dns.Answer := answers; dns.Ns := []; dns.Extra := [] |}.

(** A response that carries answers but no question section. *)
Definition replyNoQuestion (answers : list dns.RR) : dns.Msg :=
  {| dns.Id := 1; dns.Response := true; dns.Rcode := dns.RcodeSuccess;
     dns.Question_ := [];
     dns.Answer := answers; dns.Ns := []; dns.Extra := [] |}.

(** The plugin value the tests build by hand: one zone, its ranges, and a
    next handler that answers [m]. *)
Definition plugin (zoneId : string) (cidrs : list string) (m : dns.Msg)
  : Zoneawareness :=
  {| Next := Some (mockHandler m);
     Zones := {[ zoneId := {| CIDRs := omap ipv4text.ParseCIDR cidrs |} ]};
     currentAvailabilityZoneId := zoneId;
     HasSynced := false |}.

(** A plugin value whose map has no entry for its current zone. *)
Definition pluginWithoutZone (zoneId : string) (m : dns.Msg)
  : Zoneawareness :=
  {| Next := Some (mockHandler m); Zones := ∅;
     currentAvailabilityZoneId := zoneId; HasSynced := false |}.

(** [test.ResponseWriter]: every write succeeds. *)
Definition w : ResponseWriter := {| WriteMsg := fun _ => None |}.

(** [context.TODO()] carries no server, so the label is empty; the loop is
    taken to have run for 1500ns. *)
Definition env : Env := {| server := ""; reorderElapsed := 1500 |}.

Definition req : dns.Msg := request "example.org." dns.TypeA.

(** TestZoneawareness. *)
Definition answers3 : list dns.RR :=
  [A "example.org." 10 0 0 1; A "example.org." 192 168 1 1;
   A "example.org." 10 0 0 2].

(** TestZoneawarenessCases, "multi-no-match". *)
Definition answersNoMatch : list dns.RR :=
  [A "multi-no-match.coredns.io." 198 51 100 1;
   A "multi-no-match.coredns.io." 198 51 100 2].

End fixtures.

(** ** Statements about a response *)

(** How many records of [answers] the loop of [e] classifies "preferred". *)
Definition preferredCount (e : Zoneawareness) (answers : list dns.RR) : nat :=
  match currentCIDRs e with
  | Some cidrs => length (List.filter (isPreferred cidrs) answers)
  | None => O
  end.

(** [output] is the stable preferred-first rearrangement of [input]: the
    same records, every preferred one before every other one, and each of
    the two classes in its input order. *)
Definition stablePartition (preferred : dns.RR -> bool)
    (input output : list dns.RR) : Prop :=
  Permutation input output
  /\ (exists pre post,
        output = pre ++ post
        /\ Forall (fun rr => preferred rr = true) pre
        /\ Forall (fun rr => preferred rr = false) post)
  /\ List.filter preferred output = List.filter preferred input
  /\ List.filter (fun rr => negb (preferred rr)) output
     = List.filter (fun rr => negb (preferred rr)) input.

(** The reading of the "nothing preferred" case in which no instrument at
    all is touched: the response goes out as it came and the three
    instruments are what they were. *)
Definition no_preferred_touches_no_instrument : Prop :=
  forall e env w r ms m rcode,
    responds e r m rcode ->
    dns.Rcode m = dns.RcodeSuccess ->
    (2 <= length (dns.Answer m))%nat ->
    Forall (classifiedOther e) (dns.Answer m) ->
    sentOf (ServeDNS e env w r ms) = Some m
    /\ reorderedQueriesCount (metricsOf (ServeDNS e env w r ms))
       = reorderedQueriesCount ms
    /\ reorderCount (metricsOf (ServeDNS e env w r ms)) = reorderCount ms
    /\ reorderLatency (metricsOf (ServeDNS e env w r ms)) = reorderLatency ms.

(** The reading of the unchecked map access in which every successful
    response with two or more answers hits the missing entry. *)
Definition missing_zone_always_dereferences : Prop :=
  forall e env w r ms m rcode,
    responds e r m rcode ->
    dns.Rcode m = dns.RcodeSuccess ->
    (2 <= length (dns.Answer m))%nat ->
    Zones e !! currentAvailabilityZoneId e = None ->
    ServeDNS e env w r ms = Panicked NilPointerDereference ms.

(** ** Statements about setup *)

(** The ranges of zone [z] in the registry of [l]; none when [z] has no
    entry. *)
Definition table (l : Zoneawareness) (z : string) : list net.IPNet :=
  default [] (CIDRs <$> (Zones l !! z)).

(** The condition under which [setup] takes the zone identifier from the
    metadata lookup: no error, and neither the identifier nor the region is
    empty. *)
Definition discoveryYields (res : string * string * option Error) : bool :=
  let '(instanceAvailabilityZoneId, instanceRegion, err) := res in
  match err with
  | Some _ => false
  | None => negb (String.eqb instanceAvailabilityZoneId "")
            && negb (String.eqb instanceRegion "")
  end.

(** The services [aws] as they answer calls made under the context [ctx]. *)
Definition atContext (ctx : context.Context) (aws : AWS) : AWS :=
  {| LoadDefaultConfig := fun _ => LoadDefaultConfig aws ctx;
     GetMetadata := fun _ => GetMetadata aws ctx;
     DescribeSubnets := fun _ => DescribeSubnets aws ctx |}.

(** The mocks of TestSetup. *)
Module mocks.

Definition IMDS (azID region : string) : unit -> string * string * option Error :=
  fun _ => (azID, region, None).

Definition noIMDS : unit -> string * string * option Error :=
  fun _ => ("", "", Some "no imds").

Definition noEC2 (_ : context.Context) (_ _ : string)
  : list Subnet * option Error :=
  ([], Some "EC2 not available in test").

Definition EC2 (subnets : list Subnet) (_ : context.Context) (_ _ : string)
  : list Subnet * option Error :=
  (subnets, None).

(** An inventory service that answers only a call that carries a deadline,
    and reports a call that does not. *)
Definition EC2WantsDeadline (subnets : list Subnet) (ctx : context.Context)
    (_ _ : string) : list Subnet * option Error :=
  match context.Deadline ctx with
  | Some _ => (subnets, None)
  | None => ([], Some "describe subnets: context without deadline")
  end.

Definition noEnv : string -> string := fun _ => "".

Definition Env (AWS_ZONE_ID : string) : string -> string :=
  fun name => if String.eqb name "AWS_ZONE_ID" then AWS_ZONE_ID else "".

Definition subnet (id : string) (cidr : string) : Subnet :=
  {| SubnetId := id; CidrBlock := Some cidr;
     Ipv6CidrBlockAssociationSet := [] |}.

End mocks.

(** The IPv4 network [a.b.c.d/ones], as [net.ParseCIDR] builds it. *)
Definition cidr4 (a b c d : Z) (ones : nat) : net.IPNet :=
  {| net.IPNet_IP := net.Mask [a; b; c; d] (net.CIDRMask ones 32);
     net.IPNet_Mask := net.CIDRMask ones 32 |}.

(** ** Statements about the whole of a call and of a start-up *)


(** The plugin [e] with [h] as its next handler. *)
Definition withNext (e : Zoneawareness) (h : Handler) : Zoneawareness :=
  {| Next := Some h; Zones := Zones e;
     currentAvailabilityZoneId := currentAvailabilityZoneId e;
     HasSynced := HasSynced e |}.

(** The network a CIDR block of a discovered subnet contributes: none for
    a nil pointer, an empty text or a text that does not parse. *)
Definition usableBlock (ParseCIDR : string -> option net.IPNet)
    (block : option string) : option net.IPNet :=
  match block with
  | Some cidrStr => if String.eqb cidrStr "" then None else ParseCIDR cidrStr
  | None => None
  end.

(** The blocks of a subnet in the order [setup] reads them: the IPv4 block,
    then the IPv6 associations. *)
Definition subnetBlocks (subnet : Subnet) : list (option string) :=
  CidrBlock subnet :: Ipv6CidrBlockAssociationSet subnet.

Definition discoveredRanges (ParseCIDR : string -> option net.IPNet)
    (subnets : list Subnet) : list net.IPNet :=
  omap (usableBlock ParseCIDR) (flat_map subnetBlocks subnets).

(** The networks one Corefile statement contributes when the current zone
    is [id]. *)
Definition statementRanges (ParseCIDR : string -> option net.IPNet)
    (id : string) (args : list string) : list net.IPNet :=
  match args with
  | zoneName :: cidrStr :: cidrArgs =>
      if String.eqb zoneName id
         && regexp.MatchString awsZoneIDPattern zoneName
      then omap ParseCIDR (cidrStr :: cidrArgs)
      else []
  | _ => []
  end.

Definition staticRanges (ParseCIDR : string -> option net.IPNet)
    (id : string) (corefile : list (list string)) : list net.IPNet :=
  flat_map (statementRanges ParseCIDR id) corefile.

(** A statement that names the zone [id] and has at least one argument
    after the name. *)
Definition namesZone (id : string) (args : list string) : bool :=
  match args with
  | zoneName :: _ :: _ => String.eqb zoneName id
  | _ => false
  end.

(** What the inventory lookup of [setup] contributes: nothing unless the
    metadata lookup yields, and then the ranges of the subnets returned for
    the discovered identifier and region, or nothing on an error. *)
Definition inventoryRanges (ParseCIDR : string -> option net.IPNet)
    (imds : unit -> string * string * option Error)
    (ec2 : context.Context -> string -> string -> list Subnet * option Error)
  : list net.IPNet :=
  if discoveryYields (imds tt) then
    match ec2 context.Background (imds tt).1.1 (imds tt).1.2 with
    | (subnets, None) => discoveredRanges ParseCIDR subnets
    | (_, Some _) => []
    end
  else [].

(** ** The language of a pattern *)

(** The texts a pattern denotes, by the usual reading of its operators. *)
Fixpoint lang (r : regexp.Regexp) (s : string) : Prop :=
  match r with
  | regexp.NoMatch => False
  | regexp.EmptyMatch => s = ""
  | regexp.Literal c => s = String c ""
  | regexp.CharClass lo hi =>
      exists c, s = String c "" /\ regexp.inClass lo hi c = true
  | regexp.Concat r1 r2 =>
      exists s1 s2, s = (s1 ++ s2)%string /\ lang r1 s1 /\ lang r2 s2
  | regexp.Alternate r1 r2 => lang r1 s \/ lang r2 s
  end.

Definition isLower (c : ascii) : Prop := regexp.inClass "a" "z" c = true.
Definition isDigit (c : ascii) : Prop := regexp.inClass "0" "9" c = true.

Fixpoint allLower (s : string) : Prop :=
  match s with
  | EmptyString => True
  | String c s' => isLower c /\ allLower s'
  end.

(** The shape of an availability-zone identifier: two to four lower-case
    letters and a digit (the region), optionally a dash, three lower-case
    letters and a digit (the sub-region), then [-az] and a digit. *)
Definition zoneIDShape (s : string) : Prop :=
  exists letters d sub z,
    s = (letters ++ String d (sub ++ "-az" ++ String z ""))%string
    /\ allLower letters
    /\ (2 <= String.length letters <= 4)%nat
    /\ isDigit d /\ isDigit z
    /\ (sub = ""
        \/ exists a b c d',
             sub = String "-" (String a (String b (String c (String d' ""))))
             /\ isLower a /\ isLower b /\ isLower c /\ isDigit d').

(** ** A metadata service for the examples *)

Module cloud.

(** A metadata service that answers the two paths with the given bodies;
    the inventory API refuses every call. *)
Definition aws (azIDBody regionBody : string) : AWS :=
  {| LoadDefaultConfig := fun _ => None;
     GetMetadata := fun _ path =>
       if String.eqb path "placement/availability-zone-id"
       then Content (inr azIDBody)
       else if String.eqb path "placement/region"
            then Content (inr regionBody)
            else GetMetadataError "not found";
     DescribeSubnets := fun _ _ _ => inl "UnauthorizedOperation" |}.

(** [strings.TrimSpace] on texts that have no white space around them. *)
Definition trimmed (s : string) : string := s.

End cloud.

(** ** The membership test and the classification loop *)

Lemma ipMatchesCIDRs_existsb ip cidrs :
  ipMatchesCIDRs ip cidrs = existsb (fun cidr => net.Contains cidr ip) cidrs.
Proof.
  induction cidrs as [|cidr rest IH]; simpl; [reflexivity|].
  destruct (net.Contains cidr ip); simpl; auto.
Qed.

Lemma ipMatchesCIDRs_app ip pre post :
  ipMatchesCIDRs ip (pre ++ post)
  = ipMatchesCIDRs ip pre || ipMatchesCIDRs ip post.
Proof.
  induction pre as [|c pre IH]; simpl; [reflexivity|].
  destruct (net.Contains c ip); simpl; auto.
Qed.

Lemma currentCIDRs_Some e cidrs :
  currentCIDRs e = Some cidrs ->
  exists zone, Zones e !! currentAvailabilityZoneId e = Some zone
               /\ CIDRs zone = cidrs.
Proof.
  unfold currentCIDRs. destruct (Zones e !! currentAvailabilityZoneId e) as [z|];
    simpl; intros H; [|discriminate].
  exists z. split; [reflexivity|congruence].
Qed.

Lemma currentCIDRs_None e :
  currentCIDRs e = None <-> Zones e !! currentAvailabilityZoneId e = None.
Proof.
  unfold currentCIDRs. destruct (Zones e !! currentAvailabilityZoneId e);
    simpl; split; congruence.
Qed.

(** With the zone present the loop is the stable two-way split. *)
Lemma classify_present e cidrs :
  currentCIDRs e = Some cidrs ->
  forall answers preferred other,
    classify e answers preferred other
    = Some (preferred ++ List.filter (isPreferred cidrs) answers,
            other ++ List.filter (isOther cidrs) answers).
Proof.
  intros Hz. destruct (currentCIDRs_Some _ _ Hz) as (zone & Hzone & Hc).
  induction answers as [|rr rest IH]; intros preferred other; simpl.
  - now rewrite !app_nil_r.
  - unfold isOther, isPreferred.
    destruct (extractRRIP rr) as [ip|] eqn:Hip.
    + rewrite Hzone, Hc.
      destruct (ipMatchesCIDRs ip cidrs) eqn:Hm; simpl; rewrite IH;
        now rewrite <- app_assoc.
    + simpl. rewrite IH. now rewrite <- app_assoc.
Qed.

(** Records without an address never reach the map lookup. *)
Lemma classify_no_address e :
  forall answers preferred other,
    Forall (fun rr => extractRRIP rr = None) answers ->
    classify e answers preferred other = Some (preferred, other ++ answers).
Proof.
  induction answers as [|rr rest IH]; intros preferred other Hall; simpl.
  - now rewrite app_nil_r.
  - inversion Hall as [|? ? Hrr Hrest]; subst. rewrite Hrr.
    rewrite IH by assumption. now rewrite <- app_assoc.
Qed.

(** With the zone missing, the first record with an address panics. *)
Lemma classify_missing e :
  currentCIDRs e = None ->
  forall answers preferred other,
    Exists (fun rr => extractRRIP rr <> None) answers ->
    classify e answers preferred other = None.
Proof.
  intros Hz. apply currentCIDRs_None in Hz.
  induction answers as [|rr rest IH]; intros preferred other Hex.
  - inversion Hex.
  - simpl. destruct (extractRRIP rr) as [ip|] eqn:Hip.
    + now rewrite Hz.
    + apply IH. inversion Hex as [? ? Hrr|? ? Hrest]; subst;
        [congruence|assumption].
Qed.

(** When every record is classified "other" the loop keeps the input. *)
Lemma classify_all_other e :
  forall answers preferred other,
    Forall (classifiedOther e) answers ->
    classify e answers preferred other = Some (preferred, other ++ answers).
Proof.
  induction answers as [|rr rest IH]; intros preferred other Hall; simpl.
  - now rewrite app_nil_r.
  - inversion Hall as [|? ? Hrr Hrest]; subst.
    unfold classifiedOther in Hrr.
    destruct (extractRRIP rr) as [ip|].
    + destruct Hrr as (cidrs & Hz & Hm).
      destruct (currentCIDRs_Some _ _ Hz) as (zone & Hzone & Hc).
      rewrite Hzone, Hc, Hm, IH by assumption. now rewrite <- app_assoc.
    + rewrite IH by assumption. now rewrite <- app_assoc.
Qed.

Lemma filter_isOther_all cidrs answers :
  List.filter (isPreferred cidrs) answers = [] ->
  List.filter (isOther cidrs) answers = answers.
Proof.
  induction answers as [|rr rest IH]; simpl; [reflexivity|].
  unfold isOther at 1. destruct (isPreferred cidrs rr); simpl.
  - discriminate.
  - intros H. now rewrite IH.
Qed.

Lemma classifiedPreferred_isPreferred e cidrs rr :
  currentCIDRs e = Some cidrs ->
  classifiedPreferred e rr <-> isPreferred cidrs rr = true.
Proof.
  intros Hz. unfold classifiedPreferred, isPreferred. split.
  - intros (ip & cidrs' & Hip & Hz' & Hm). rewrite Hip. congruence.
  - destruct (extractRRIP rr) as [ip|]; [|discriminate].
    intros Hm. now exists ip, cidrs.
Qed.

Lemma filter_nonempty {X} (f : X -> bool) (l : list X) x :
  In x l -> f x = true -> List.filter f l <> [].
Proof.
  intros Hin Hf Hnil.
  assert (Hx : In x (List.filter f l)) by (apply filter_In; auto).
  rewrite Hnil in Hx. inversion Hx.
Qed.

(** ** The library models on the values of the tests *)

Example ParseCIDR_10_0_0_0_24 :
  ipv4text.ParseCIDR "10.0.0.0/24"
  = Some {| net.IPNet_IP := [10; 0; 0; 0];
            net.IPNet_Mask := [255; 255; 255; 0] |}.
Proof. reflexivity. Qed.

Example ParseCIDR_masks_host_bits :
  ipv4text.ParseCIDR "192.168.77.9/19"
  = Some {| net.IPNet_IP := [192; 168; 64; 0];
            net.IPNet_Mask := [255; 255; 224; 0] |}.
Proof. reflexivity. Qed.

Example ParseCIDR_prefix_too_long : ipv4text.ParseCIDR "10.0.0.0/33" = None.
Proof. reflexivity. Qed.

Example ParseCIDR_no_slash : ipv4text.ParseCIDR "10.0.0.0" = None.
Proof. reflexivity. Qed.

Example Contains_10_0_0_1 :
  net.Contains {| net.IPNet_IP := [10; 0; 0; 0];
                  net.IPNet_Mask := [255; 255; 255; 0] |}
               (net.IPv4 10 0 0 1) = true.
Proof. reflexivity. Qed.

Example Contains_192_168_1_1 :
  net.Contains {| net.IPNet_IP := [10; 0; 0; 0];
                  net.IPNet_Mask := [255; 255; 255; 0] |}
               (net.IPv4 192 168 1 1) = false.
Proof. reflexivity. Qed.

(** An IPv6 address is never inside an IPv4 network. *)
Example Contains_v6_in_v4 :
  net.Contains {| net.IPNet_IP := [10; 0; 0; 0];
                  net.IPNet_Mask := [255; 255; 255; 0] |}
               [32; 1; 13; 184; 0; 1; 0; 0; 0; 0; 0; 0; 0; 0; 0; 50] = false.
Proof. reflexivity. Qed.

Example awsZoneIDPattern_examples :
  map (regexp.MatchString awsZoneIDPattern)
      ["use2-az1"; "euw1-az2"; "apse1-az3"; "usw2-lax1-az1";
       ""; "my-invalid-zone"; "test-az-1"; "use1-az1 "; "u1-az1";
       "abcde1-az1"; "use1-az"; "USE1-az1"]
  = [true; true; true; true;
     false; false; false; false; false; false; false; false].
Proof. reflexivity. Qed.

(** ** ServeDNS, case by case *)

Lemma ServeDNS_failure_rcode e env w r ms m rcode :
  responds e r m rcode ->
  dns.Rcode m <> dns.RcodeSuccess ->
  ServeDNS e env w r ms = writeFinalResponse w m ms.
Proof.
  unfold responds, ServeDNS. intros -> Hrc. simpl.
  destruct (dns.Rcode m =? dns.RcodeSuccess) eqn:E; [|reflexivity].
  apply Z.eqb_eq in E. contradiction.
Qed.

Lemma ServeDNS_short e env w r ms m rcode :
  responds e r m rcode ->
  (length (dns.Answer m) <= 1)%nat ->
  ServeDNS e env w r ms = writeFinalResponse w m ms.
Proof.
  unfold responds, ServeDNS. intros -> Hlen. simpl.
  destruct (negb (dns.Rcode m =? dns.RcodeSuccess)); [reflexivity|].
  apply Nat.leb_le in Hlen. now rewrite Hlen.
Qed.

(** A successful response with two or more answers reaches the loop. *)
Lemma ServeDNS_long e env w r ms m rcode :
  responds e r m rcode ->
  dns.Rcode m = dns.RcodeSuccess ->
  (2 <= length (dns.Answer m))%nat ->
  ServeDNS e env w r ms =
  match classify e (dns.Answer m) [] [] with
  | None => Panicked NilPointerDereference ms
  | Some (preferredAnswers, otherAnswers) =>
      let ms1 := observeLatency ms (server env) (reorderElapsed env) in
      if Nat.eqb (length preferredAnswers) 0 then writeFinalResponse w m ms1
      else
        let ms3 := addReorderCount (incReorderedQueries ms1 (server env))
                     (server env) (Z.of_nat (length preferredAnswers)) in
        match dns.Question_ m with
        | [] => Panicked IndexOutOfRange ms3
        | _ :: _ =>
            writeFinalResponse w
              (dns.withAnswer m (preferredAnswers ++ otherAnswers)) ms3
        end
  end.
Proof.
  unfold responds, ServeDNS. intros -> Hrc Hlen. simpl.
  rewrite Hrc. simpl.
  destruct (Nat.leb (length (dns.Answer m)) 1) eqn:E.
  - apply Nat.leb_le in E. lia.
  - reflexivity.
Qed.

Lemma writeFinalResponse_returns w m ms :
  exists rcode,
    writeFinalResponse w m ms = Returned rcode (WriteMsg w m) (Some m) ms
    /\ rcode = match WriteMsg w m with
               | Some _ => dns.RcodeServerFailure
               | None => dns.RcodeSuccess
               end.
Proof.
  unfold writeFinalResponse. destruct (WriteMsg w m); eauto.
Qed.

Lemma mockHandler_responds e r m :
  Next e = Some (mockHandler m) -> responds e r m dns.RcodeSuccess.
Proof. unfold responds, NextOrFailure. now intros ->. Qed.

Lemma counterValue_add c s v :
  counterValue (counterAdd c s v) s = counterValue c s + v.
Proof. unfold counterValue, counterAdd. now rewrite lookup_insert_eq. Qed.

Lemma counterValue_add_ne c s s' v :
  s <> s' -> counterValue (counterAdd c s v) s' = counterValue c s'.
Proof.
  intros Hne. unfold counterValue, counterAdd. now rewrite lookup_insert_ne.
Qed.

Lemma observations_observe h s d :
  observations (histogramObserve h s d) s = observations h s ++ [d].
Proof.
  unfold observations, histogramObserve. now rewrite lookup_insert_eq.
Qed.

Lemma observations_observe_ne h s s' d :
  s <> s' -> observations (histogramObserve h s d) s' = observations h s'.
Proof.
  intros Hne. unfold observations, histogramObserve.
  now rewrite lookup_insert_ne.
Qed.

(** ** A response without a preferred record *)

(** On the "multi-no-match" response of the tests the histogram receives an
    observation although nothing is preferred: the call of [Observe] comes
    before the test of [len(preferredAnswers) == 0]. *)
Lemma no_preferred_observes_latency : ~ no_preferred_touches_no_instrument.
Proof.
  intros H.
  pose (m := fixtures.reply fixtures.req fixtures.answersNoMatch).
  pose (e := fixtures.plugin "use2-az1" ["192.0.2.0/24"] m).
  destruct (H e fixtures.env fixtures.w fixtures.req noMetrics m
              dns.RcodeSuccess) as (_ & _ & _ & Hlat).
  - reflexivity.
  - reflexivity.
  - simpl. lia.
  - repeat constructor; simpl;
      (eexists; split; [reflexivity|reflexivity]).
  - apply (f_equal (fun h => observations h "")) in Hlat.
    vm_compute in Hlat. discriminate.
Qed.

(** C1 (amended). A successful response with two or more answers, none of
    them classified preferred, is written to the client as it was received
    (the same message, hence the same answers in the same order); neither
    counter is changed for any server; and the latency histogram receives
    exactly one observation, the duration of the classification loop, under
    the label of the serving instance. *)
Theorem ServeDNS_no_preferred e env w r ms m rcode :
  responds e r m rcode ->
  dns.Rcode m = dns.RcodeSuccess ->
  (2 <= length (dns.Answer m))%nat ->
  Forall (classifiedOther e) (dns.Answer m) ->
  exists rcode' ms',
    ServeDNS e env w r ms = Returned rcode' (WriteMsg w m) (Some m) ms'
    /\ reorderedQueriesCount ms' = reorderedQueriesCount ms
    /\ reorderCount ms' = reorderCount ms
    /\ observations (reorderLatency ms') (server env)
       = observations (reorderLatency ms) (server env) ++ [reorderElapsed env]
    /\ (forall s, s <> server env ->
          observations (reorderLatency ms') s
          = observations (reorderLatency ms) s).
Proof.
  intros Hnext Hrc Hlen Hother.
  rewrite (ServeDNS_long _ _ _ _ _ _ _ Hnext Hrc Hlen).
  rewrite (classify_all_other e _ [] [] Hother). simpl.
  destruct (writeFinalResponse_returns w m
              (observeLatency ms (server env) (reorderElapsed env)))
    as (rcode' & -> & _).
  exists rcode', (observeLatency ms (server env) (reorderElapsed env)).
  repeat split.
  - apply observations_observe.
  - intros s Hs. simpl. now apply observations_observe_ne.
Qed.

Lemma ServeDNS_no_preferred_witness :
  exists rcode' ms',
    ServeDNS
      (fixtures.plugin "use2-az1" ["192.0.2.0/24"]
         (fixtures.reply fixtures.req fixtures.answersNoMatch))
      fixtures.env fixtures.w fixtures.req noMetrics
    = Returned rcode' None
        (Some (fixtures.reply fixtures.req fixtures.answersNoMatch)) ms'
    /\ reorderedQueriesCount ms' = ∅
    /\ reorderCount ms' = ∅
    /\ observations (reorderLatency ms') "" = [] ++ [1500]
    /\ (forall s, s <> "" -> observations (reorderLatency ms') s = []).
Proof.
  apply (ServeDNS_no_preferred
           (fixtures.plugin "use2-az1" ["192.0.2.0/24"]
              (fixtures.reply fixtures.req fixtures.answersNoMatch))
           fixtures.env fixtures.w fixtures.req noMetrics
           (fixtures.reply fixtures.req fixtures.answersNoMatch)
           dns.RcodeSuccess).
  - reflexivity.
  - reflexivity.
  - simpl. lia.
  - repeat constructor; simpl;
      (eexists; split; [reflexivity|reflexivity]).
Defined.

(** ** A response with a preferred record *)

Lemma Permutation_filter_split {X} (f : X -> bool) (l : list X) :
  Permutation l (List.filter f l ++ List.filter (fun x => negb (f x)) l).
Proof.
  induction l as [|x l IH]; simpl; [constructor|].
  destruct (f x); simpl.
  - now constructor.
  - etransitivity; [apply perm_skip, IH|]. apply Permutation_middle.
Qed.

Lemma filter_filter_same {X} (f : X -> bool) (l : list X) :
  List.filter f (List.filter f l) = List.filter f l.
Proof.
  induction l as [|x l IH]; simpl; [reflexivity|].
  destruct (f x) eqn:E; simpl; [rewrite E|]; congruence.
Qed.

Lemma filter_filter_neg {X} (f : X -> bool) (l : list X) :
  List.filter f (List.filter (fun x => negb (f x)) l) = [].
Proof.
  induction l as [|x l IH]; simpl; [reflexivity|].
  destruct (f x) eqn:E; simpl; [|rewrite E]; assumption.
Qed.

Lemma filter_neg_filter {X} (f : X -> bool) (l : list X) :
  List.filter (fun x => negb (f x)) (List.filter f l) = [].
Proof.
  induction l as [|x l IH]; simpl; [reflexivity|].
  destruct (f x) eqn:E; simpl; [rewrite E|]; assumption.
Qed.

Lemma filter_neg_filter_neg {X} (f : X -> bool) (l : list X) :
  List.filter (fun x => negb (f x)) (List.filter (fun x => negb (f x)) l)
  = List.filter (fun x => negb (f x)) l.
Proof. apply (filter_filter_same (fun x => negb (f x))). Qed.

Lemma Forall_filter_true {X} (f : X -> bool) (l : list X) :
  Forall (fun x => f x = true) (List.filter f l).
Proof. apply List.Forall_forall. intros x Hx. now apply filter_In in Hx. Qed.

(** Preferred first, each class in input order, is a stable partition. *)
Lemma filter_app_stablePartition preferred answers :
  stablePartition preferred answers
    (List.filter preferred answers
     ++ List.filter (fun rr => negb (preferred rr)) answers).
Proof.
  repeat split.
  - apply Permutation_filter_split.
  - exists (List.filter preferred answers),
           (List.filter (fun rr => negb (preferred rr)) answers).
    repeat split.
    + apply Forall_filter_true.
    + apply List.Forall_forall. intros x Hx. apply filter_In in Hx.
      destruct Hx as [_ Hx]. now apply negb_true_iff in Hx.
  - rewrite List.filter_app, filter_filter_same, filter_filter_neg.
    apply app_nil_r.
  - rewrite List.filter_app, filter_neg_filter, filter_neg_filter_neg.
    reflexivity.
Qed.

Lemma Exists_classifiedPreferred e answers :
  Exists (classifiedPreferred e) answers ->
  exists cidrs,
    currentCIDRs e = Some cidrs
    /\ List.filter (isPreferred cidrs) answers <> [].
Proof.
  intros Hex. apply List.Exists_exists in Hex. destruct Hex as (rr & Hin & Hp).
  destruct Hp as (ip & cidrs & Hip & Hz & Hm).
  exists cidrs. split; [assumption|].
  apply (filter_nonempty _ _ rr Hin).
  unfold isPreferred. now rewrite Hip.
Qed.

(** The reordering branch: what [ServeDNS] does once the loop has found a
    preferred record. *)
Lemma ServeDNS_preferred e env w r ms m rcode cidrs :
  responds e r m rcode ->
  dns.Rcode m = dns.RcodeSuccess ->
  (2 <= length (dns.Answer m))%nat ->
  currentCIDRs e = Some cidrs ->
  List.filter (isPreferred cidrs) (dns.Answer m) <> [] ->
  let preferredAnswers := List.filter (isPreferred cidrs) (dns.Answer m) in
  let otherAnswers := List.filter (isOther cidrs) (dns.Answer m) in
  let ms3 :=
    addReorderCount
      (incReorderedQueries
         (observeLatency ms (server env) (reorderElapsed env)) (server env))
      (server env) (Z.of_nat (length preferredAnswers)) in
  ServeDNS e env w r ms =
  match dns.Question_ m with
  | [] => Panicked IndexOutOfRange ms3
  | _ :: _ =>
      writeFinalResponse w
        (dns.withAnswer m (preferredAnswers ++ otherAnswers)) ms3
  end.
Proof.
  intros Hnext Hrc Hlen Hz Hne. simpl.
  rewrite (ServeDNS_long _ _ _ _ _ _ _ Hnext Hrc Hlen).
  rewrite (classify_present e cidrs Hz). simpl.
  destruct (List.filter (isPreferred cidrs) (dns.Answer m)) eqn:E;
    [contradiction|].
  reflexivity.
Qed.

(** X10. The reordering branch returns when the response has its question
    section, and then sends the stable preferred-first rearrangement. *)
Lemma ServeDNS_stable_partition e env w r ms m rcode :
  responds e r m rcode ->
  dns.Rcode m = dns.RcodeSuccess ->
  (2 <= length (dns.Answer m))%nat ->
  Exists (classifiedPreferred e) (dns.Answer m) ->
  dns.Question_ m <> [] ->
  exists cidrs rcode' err m' ms',
    currentCIDRs e = Some cidrs
    /\ ServeDNS e env w r ms = Returned rcode' err (Some m') ms'
    /\ stablePartition (isPreferred cidrs) (dns.Answer m) (dns.Answer m')
    /\ m' = dns.withAnswer m (dns.Answer m').
Proof.
  intros Hnext Hrc Hlen Hex Hq.
  destruct (Exists_classifiedPreferred _ _ Hex) as (cidrs & Hz & Hne).
  rewrite (ServeDNS_preferred _ env w _ ms _ _ _ Hnext Hrc Hlen Hz Hne).
  destruct (dns.Question_ m) as [|q qs]; [contradiction|].
  match goal with |- context [writeFinalResponse ?w ?m' ?ms'] =>
    destruct (writeFinalResponse_returns w m' ms') as (rcode' & -> & _);
    exists cidrs, rcode', (WriteMsg w m'), m', ms'
  end.
  repeat split; try apply filter_app_stablePartition.
  - assumption.
Qed.

Lemma isPreferred_no_address cidrs rr :
  extractRRIP rr = None -> isPreferred cidrs rr = false.
Proof. unfold isPreferred. now intros ->. Qed.

Lemma preferredCount_present e cidrs answers :
  currentCIDRs e = Some cidrs ->
  preferredCount e answers = length (List.filter (isPreferred cidrs) answers).
Proof. unfold preferredCount. now intros ->. Qed.

(** C3. The response of the tests' three answers, relayed without a
    question section: the loop finds two preferred records, the instruments
    are updated, and the evaluation of [pw.msg.Question[0].Name] for the
    debug line panics before anything is written to the client. *)
Theorem ServeDNS_no_question_panics :
  let m := fixtures.replyNoQuestion fixtures.answers3 in
  let e := fixtures.plugin "euc1-az2" ["10.0.0.0/24"] m in
  Exists (classifiedPreferred e) (dns.Answer m)
  /\ exists ms',
       ServeDNS e fixtures.env fixtures.w fixtures.req noMetrics
       = Panicked IndexOutOfRange ms'
       /\ sentOf (ServeDNS e fixtures.env fixtures.w fixtures.req noMetrics)
          = None.
Proof.
  split.
  - apply Exists_cons_hd. eexists _, _. repeat split; reflexivity.
  - eexists. split; reflexivity.
Qed.

(** C4. Whenever a successful response with two or more answers has a
    preferred record, the instruments after [ServeDNS] are the instruments
    before it with exactly three updates under the server's label: one
    observation appended to the latency histogram, the reordered-requests
    counter plus 1, the records-reordered counter plus the number of
    preferred records; every other label is untouched.  On the tests'
    response [10.0.0.1, 192.168.1.1, 10.0.0.2] with the zone 10.0.0.0/24
    the client receives [10.0.0.1, 10.0.0.2, 192.168.1.1] and the counters
    go up by 1 and by 2. *)
Theorem ServeDNS_reorder_instruments :
  (forall e env w r ms m rcode,
     responds e r m rcode ->
     dns.Rcode m = dns.RcodeSuccess ->
     (2 <= length (dns.Answer m))%nat ->
     Exists (classifiedPreferred e) (dns.Answer m) ->
     let ms' := metricsOf (ServeDNS e env w r ms) in
     let s := server env in
     ms' = addReorderCount
             (incReorderedQueries
                (observeLatency ms s (reorderElapsed env)) s)
             s (Z.of_nat (preferredCount e (dns.Answer m)))
     /\ counterValue (reorderedQueriesCount ms') s
        = counterValue (reorderedQueriesCount ms) s + 1
     /\ counterValue (reorderCount ms') s
        = counterValue (reorderCount ms) s
          + Z.of_nat (preferredCount e (dns.Answer m))
     /\ observations (reorderLatency ms') s
        = observations (reorderLatency ms) s ++ [reorderElapsed env]
     /\ (forall s', s <> s' ->
           counterValue (reorderedQueriesCount ms') s'
           = counterValue (reorderedQueriesCount ms) s'
           /\ counterValue (reorderCount ms') s'
              = counterValue (reorderCount ms) s'
           /\ observations (reorderLatency ms') s'
              = observations (reorderLatency ms) s'))
  /\ (forall ms,
        let e := fixtures.plugin "euc1-az2" ["10.0.0.0/24"]
                   (fixtures.reply fixtures.req fixtures.answers3) in
        exists ms',
          ServeDNS e fixtures.env fixtures.w fixtures.req ms
          = Returned dns.RcodeSuccess None
              (Some (fixtures.reply fixtures.req
                       [fixtures.A "example.org." 10 0 0 1;
                        fixtures.A "example.org." 10 0 0 2;
                        fixtures.A "example.org." 192 168 1 1])) ms'
          /\ counterValue (reorderedQueriesCount ms') ""
             = counterValue (reorderedQueriesCount ms) "" + 1
          /\ counterValue (reorderCount ms') ""
             = counterValue (reorderCount ms) "" + 2).
Proof.
  split.
  - intros e env w r ms m rcode Hnext Hrc Hlen Hex.
    destruct (Exists_classifiedPreferred _ _ Hex) as (cidrs & Hz & Hne).
    rewrite (preferredCount_present _ _ _ Hz).
    rewrite (ServeDNS_preferred _ env w _ ms _ _ _ Hnext Hrc Hlen Hz Hne).
    set (ms3 := addReorderCount _ _ _).
    assert (Hms : metricsOf
                    match dns.Question_ m with
                    | [] => Panicked IndexOutOfRange ms3
                    | _ :: _ =>
                        writeFinalResponse w
                          (dns.withAnswer m
                             (List.filter (isPreferred cidrs) (dns.Answer m)
                              ++ List.filter (isOther cidrs) (dns.Answer m)))
                          ms3
                    end = ms3).
    { destruct (dns.Question_ m); [reflexivity|].
      unfold writeFinalResponse. now destruct (WriteMsg w _). }
    simpl. rewrite Hms. subst ms3. simpl.
    repeat split.
    + apply counterValue_add.
    + apply counterValue_add.
    + apply observations_observe.
    + now apply counterValue_add_ne.
    + now apply counterValue_add_ne.
    + now apply observations_observe_ne.
  - intros ms e. eexists. split; [reflexivity|]. simpl.
    split; apply counterValue_add.
Qed.

Lemma ServeDNS_reorder_instruments_witness :
  let e := fixtures.plugin "euc1-az2" ["10.0.0.0/24"]
             (fixtures.reply fixtures.req fixtures.answers3) in
  let ms' := metricsOf
               (ServeDNS e fixtures.env fixtures.w fixtures.req noMetrics) in
  counterValue (reorderedQueriesCount ms') "" = 0 + 1
  /\ counterValue (reorderCount ms') "" = 0 + Z.of_nat 2
  /\ observations (reorderLatency ms') "" = [] ++ [1500].
Proof.
  intros e ms'.
  destruct (proj1 ServeDNS_reorder_instruments e fixtures.env fixtures.w
              fixtures.req noMetrics
              (fixtures.reply fixtures.req fixtures.answers3)
              dns.RcodeSuccess) as (_ & H1 & H2 & H3 & _).
  - reflexivity.
  - reflexivity.
  - simpl. lia.
  - apply Exists_cons_hd. eexists _, _. repeat split; reflexivity.
  - split; [exact H1 | split; [exact H2 | exact H3]].
Defined.

(** ** The reorder step, applied twice *)

Lemma reorder_present e cidrs answers :
  currentCIDRs e = Some cidrs ->
  reorder e answers
  = Some (List.filter (isPreferred cidrs) answers
          ++ List.filter (isOther cidrs) answers).
Proof.
  intros Hz. unfold reorder. now rewrite (classify_present e cidrs Hz).
Qed.

Lemma reorder_fixpoint cidrs answers :
  let once := List.filter (isPreferred cidrs) answers
              ++ List.filter (isOther cidrs) answers in
  List.filter (isPreferred cidrs) once ++ List.filter (isOther cidrs) once
  = once.
Proof.
  simpl. unfold isOther.
  rewrite !List.filter_app.
  rewrite filter_filter_same, filter_filter_neg, filter_neg_filter.
  rewrite (filter_neg_filter_neg (isPreferred cidrs)).
  now rewrite app_nil_r.
Qed.

(** Without the zone's entry the step either panics or, when no record has
    an address, keeps the list; a second application does the same. *)
Lemma reorder_missing e answers once :
  currentCIDRs e = None ->
  reorder e answers = Some once ->
  once = answers /\ reorder e once = Some once.
Proof.
  intros Hz. unfold reorder.
  assert (Hdec : forall rr, {extractRRIP rr <> None} + {~ extractRRIP rr <> None})
    by (intros rr; destruct (extractRRIP rr); [left|right]; congruence).
  destruct (List.Exists_dec (fun rr => extractRRIP rr <> None) answers Hdec)
    as [Hex|Hno].
  - now rewrite (classify_missing e Hz answers [] [] Hex).
  - assert (Hall : Forall (fun rr => extractRRIP rr = None) answers).
    { apply List.Forall_forall. intros rr Hin.
      destruct (extractRRIP rr) eqn:E; [|reflexivity].
      exfalso. apply Hno. apply List.Exists_exists. exists rr.
      split; [assumption|congruence]. }
    rewrite (classify_no_address e answers [] [] Hall). simpl.
    intros [= <-]. split; [reflexivity|].
    now rewrite (classify_no_address e answers [] [] Hall).
Qed.

(** C5. The reorder step (the classification loop against the current
    zone's table followed by the preferred-first concatenation) produces a
    list for every answer list, and applied to the list it produced it
    produces that same list again. *)
Theorem reorder_idempotent e cidrs answers :
  currentCIDRs e = Some cidrs ->
  exists once,
    reorder e answers = Some once /\ reorder e once = Some once.
Proof.
  intros Hz. eexists. split.
  - apply (reorder_present e cidrs answers Hz).
  - rewrite (reorder_present e cidrs _ Hz). f_equal. apply reorder_fixpoint.
Qed.

Lemma reorder_idempotent_witness :
  let e := fixtures.plugin "euc1-az2" ["10.0.0.0/24"]
             (fixtures.reply fixtures.req fixtures.answers3) in
  exists once,
    reorder e fixtures.answers3 = Some once /\ reorder e once = Some once.
Proof.
  intros e.
  apply (reorder_idempotent e
           [{| net.IPNet_IP := [10; 0; 0; 0];
               net.IPNet_Mask := [255; 255; 255; 0] |}]
           fixtures.answers3).
  reflexivity.
Defined.

(** The same in the option monad, whether or not the zone has an entry: a
    second application never changes what the first one produced. *)
Lemma reorder_twice e answers :
  reorder e answers ≫= reorder e = reorder e answers.
Proof.
  destruct (reorder e answers) as [once|] eqn:E; simpl; [|reflexivity].
  destruct (currentCIDRs e) as [cidrs|] eqn:Hz.
  - rewrite (reorder_present e cidrs _ Hz) in E. injection E as <-.
    rewrite (reorder_present e cidrs _ Hz). f_equal. apply reorder_fixpoint.
  - now destruct (reorder_missing e answers once Hz E) as [_ ->].
Qed.

(** What [ServeDNS] sends on a successful response with two or more
    answers is the response with the result of the reorder step as its
    answer section. *)
Lemma ServeDNS_sends_reorder e env w r ms m rcode m' :
  responds e r m rcode ->
  dns.Rcode m = dns.RcodeSuccess ->
  (2 <= length (dns.Answer m))%nat ->
  sentOf (ServeDNS e env w r ms) = Some m' ->
  reorder e (dns.Answer m) = Some (dns.Answer m')
  /\ m' = dns.withAnswer m (dns.Answer m').
Proof.
  intros Hnext Hrc Hlen.
  rewrite (ServeDNS_long _ _ _ _ _ _ _ Hnext Hrc Hlen). unfold reorder.
  destruct (classify e (dns.Answer m) [] []) as [[p o]|] eqn:Hc;
    [|discriminate].
  simpl. destruct p as [|rr p]; simpl.
  - destruct (writeFinalResponse_returns w m
                (observeLatency ms (server env) (reorderElapsed env)))
      as (rc & -> & _).
    simpl. intros [= <-].
    assert (Ho : o = dns.Answer m).
    { destruct (currentCIDRs e) as [cidrs|] eqn:Hz.
      - rewrite (classify_present e cidrs Hz) in Hc. simpl in Hc.
        injection Hc as Hp Ho. rewrite <- Ho.
        now apply filter_isOther_all.
      - destruct (reorder_missing e (dns.Answer m) o Hz) as [Ho _];
          [|assumption].
        unfold reorder. now rewrite Hc. }
    subst o. split; [reflexivity|]. now destruct m.
  - destruct (dns.Question_ m); [discriminate|].
    match goal with |- context [writeFinalResponse ?w ?x ?y] =>
      destruct (writeFinalResponse_returns w x y) as (rc & -> & _) end.
    simpl. intros [= <-]. split; reflexivity.
Qed.

(** ** ServeDNS on its own output *)

Lemma classify_same_zones e e2 :
  Zones e2 = Zones e ->
  currentAvailabilityZoneId e2 = currentAvailabilityZoneId e ->
  forall answers preferred other,
    classify e2 answers preferred other = classify e answers preferred other.
Proof.
  intros HZ Hid. induction answers as [|rr rest IH]; intros p o; simpl;
    [reflexivity|].
  rewrite HZ, Hid. destruct (extractRRIP rr); [|apply IH].
  destruct (Zones e !! currentAvailabilityZoneId e); [|reflexivity].
  destruct (ipMatchesCIDRs _ _); apply IH.
Qed.

Lemma filter_split_length {X} (f : X -> bool) (l : list X) :
  length (List.filter f l ++ List.filter (fun x => negb (f x)) l) = length l.
Proof.
  symmetry. apply Permutation_length, Permutation_filter_split.
Qed.

(** X11. A plugin with the same zones, served the message that [ServeDNS]
    has sent, sends that message again. *)
Lemma ServeDNS_twice e env w r ms m rcode m1 :
  responds e r m rcode ->
  sentOf (ServeDNS e env w r ms) = Some m1 ->
  forall e2 env2 w2 r2 ms2 rcode2,
    Zones e2 = Zones e ->
    currentAvailabilityZoneId e2 = currentAvailabilityZoneId e ->
    responds e2 r2 m1 rcode2 ->
    sentOf (ServeDNS e2 env2 w2 r2 ms2) = Some m1.
Proof.
  intros Hnext Hsent e2 env2 w2 r2 ms2 rcode2 HZ Hid Hnext2.
  assert (Hwrite : forall w0 m0 ms0,
             sentOf (writeFinalResponse w0 m0 ms0) = Some m0).
  { intros w0 m0 ms0. unfold writeFinalResponse.
    now destruct (WriteMsg w0 m0). }
  destruct (Z.eq_dec (dns.Rcode m) dns.RcodeSuccess) as [Hrc|Hrc].
  2:{ rewrite (ServeDNS_failure_rcode _ _ _ _ _ _ _ Hnext Hrc), Hwrite in Hsent.
      injection Hsent as <-.
      now rewrite (ServeDNS_failure_rcode _ _ _ _ _ _ _ Hnext2 Hrc). }
  destruct (le_lt_dec (length (dns.Answer m)) 1) as [Hlen|Hlen].
  { rewrite (ServeDNS_short _ _ _ _ _ _ _ Hnext Hlen), Hwrite in Hsent.
    injection Hsent as <-.
    now rewrite (ServeDNS_short _ _ _ _ _ _ _ Hnext2 Hlen). }
  assert (Hlen2 : (2 <= length (dns.Answer m))%nat) by lia.
  destruct (currentCIDRs e) as [cidrs|] eqn:Hz.
  - assert (Hz2 : currentCIDRs e2 = Some cidrs)
      by (unfold currentCIDRs in *; now rewrite HZ, Hid).
    assert (Hcase : List.filter (isPreferred cidrs) (dns.Answer m) = []
                    \/ List.filter (isPreferred cidrs) (dns.Answer m) <> [])
      by (destruct (List.filter (isPreferred cidrs) (dns.Answer m));
          [left|right]; congruence).
    destruct Hcase as [Hp|Hne].
    + rewrite (ServeDNS_long _ _ _ _ _ _ _ Hnext Hrc Hlen2) in Hsent.
      rewrite (classify_present e cidrs Hz), Hp in Hsent. simpl in Hsent.
      rewrite Hwrite in Hsent. injection Hsent as <-.
      rewrite (ServeDNS_long _ _ _ _ _ _ _ Hnext2 Hrc Hlen2).
      rewrite (classify_present e2 cidrs Hz2), Hp. simpl. apply Hwrite.
    + rewrite (ServeDNS_preferred _ env w _ ms _ _ _ Hnext Hrc Hlen2 Hz Hne)
        in Hsent.
      destruct (dns.Question_ m) as [|q qs] eqn:Hq; [discriminate|].
      rewrite Hwrite in Hsent. injection Hsent as <-.
      set (once := List.filter (isPreferred cidrs) (dns.Answer m)
                   ++ List.filter (isOther cidrs) (dns.Answer m)).
      assert (Hfix : List.filter (isPreferred cidrs) once
                     = List.filter (isPreferred cidrs) (dns.Answer m)
                     /\ List.filter (isOther cidrs) once
                        = List.filter (isOther cidrs) (dns.Answer m)).
      { subst once. unfold isOther.
        rewrite !List.filter_app, filter_filter_same, filter_filter_neg,
          filter_neg_filter.
        rewrite (filter_neg_filter_neg (isPreferred cidrs)).
        now rewrite app_nil_r. }
      destruct Hfix as [Hfp Hfo].
      assert (Hlen3 : (2 <= length (dns.Answer (dns.withAnswer m once)))%nat).
      { simpl. subst once. unfold isOther. now rewrite filter_split_length. }
      assert (Hne3 : List.filter (isPreferred cidrs)
                       (dns.Answer (dns.withAnswer m once)) <> [])
        by (simpl; now rewrite Hfp).
      rewrite (ServeDNS_preferred _ env2 w2 _ ms2 _ _ _ Hnext2 Hrc Hlen3
                 Hz2 Hne3).
      subst once. cbn [dns.Question_ dns.withAnswer dns.Answer].
      rewrite Hq, Hwrite, Hfp, Hfo. reflexivity.
  - rewrite (ServeDNS_long _ _ _ _ _ _ _ Hnext Hrc Hlen2) in Hsent.
    destruct (classify e (dns.Answer m) [] []) as [[p o]|] eqn:Hc;
      [|discriminate].
    destruct (reorder_missing e (dns.Answer m) (p ++ o) Hz) as [Hpo _].
    { unfold reorder. now rewrite Hc. }
    assert (Hp : p = []).
    { assert (Hdec : forall rr : dns.RR,
                 {extractRRIP rr <> None} + {~ extractRRIP rr <> None})
        by (intros rr; destruct (extractRRIP rr); [left|right]; congruence).
      destruct (List.Exists_dec (fun rr => extractRRIP rr <> None)
                  (dns.Answer m) Hdec) as [Hex|Hno].
      - rewrite (classify_missing e Hz _ [] [] Hex) in Hc. discriminate.
      - assert (Hall : Forall (fun rr => extractRRIP rr = None) (dns.Answer m)).
        { apply List.Forall_forall. intros rr Hin.
          destruct (extractRRIP rr) eqn:E; [|reflexivity].
          exfalso. apply Hno. apply List.Exists_exists. exists rr.
          split; [assumption|congruence]. }
        rewrite (classify_no_address e _ [] [] Hall) in Hc. congruence. }
    subst p. simpl in Hsent. rewrite Hwrite in Hsent. injection Hsent as <-.
    rewrite (ServeDNS_long _ _ _ _ _ _ _ Hnext2 Hrc Hlen2).
    rewrite (classify_same_zones e e2 HZ Hid), Hc. simpl. apply Hwrite.
Qed.

(** ** A response with a failure status *)

(** C6. A response whose Rcode is not [RcodeSuccess] is handed to the
    client's writer as it was received, whatever the plugin's zones are (the
    classification loop is not run, so not even a missing zone entry can
    panic); the instruments are left as they were; and the error returned
    is the one of the client's writer, if any, with [RcodeServerFailure],
    and otherwise nil with [RcodeSuccess]. *)
Theorem ServeDNS_passes_failure_through e env w r ms m rcode :
  responds e r m rcode ->
  dns.Rcode m <> dns.RcodeSuccess ->
  exists rcode',
    ServeDNS e env w r ms = Returned rcode' (WriteMsg w m) (Some m) ms
    /\ rcode' = match WriteMsg w m with
                | Some _ => dns.RcodeServerFailure
                | None => dns.RcodeSuccess
                end
    /\ (forall e', Next e' = Next e ->
          ServeDNS e' env w r ms = ServeDNS e env w r ms).
Proof.
  intros Hnext Hrc.
  rewrite (ServeDNS_failure_rcode _ env w _ ms _ _ Hnext Hrc).
  destruct (writeFinalResponse_returns w m ms) as (rcode' & Heq & Hrcode).
  exists rcode'. repeat split; try assumption.
  intros e' He'.
  assert (Hnext' : responds e' r m rcode)
    by (unfold responds in *; now rewrite He').
  apply (ServeDNS_failure_rcode _ env w _ ms _ _ Hnext' Hrc).
Qed.

Lemma ServeDNS_passes_failure_through_witness :
  let m := fixtures.replyRcode fixtures.req dns.RcodeServerFailure
             fixtures.answers3 in
  let e := fixtures.plugin "euc1-az2" ["10.0.0.0/24"] m in
  exists rcode',
    ServeDNS e fixtures.env fixtures.w fixtures.req noMetrics
    = Returned rcode' None (Some m) noMetrics
    /\ rcode' = dns.RcodeSuccess
    /\ (forall e', Next e' = Next e ->
          ServeDNS e' fixtures.env fixtures.w fixtures.req noMetrics
          = ServeDNS e fixtures.env fixtures.w fixtures.req noMetrics).
Proof.
  intros m e.
  apply (ServeDNS_passes_failure_through e fixtures.env fixtures.w
           fixtures.req noMetrics m dns.RcodeSuccess).
  - reflexivity.
  - vm_compute. discriminate.
Defined.

(** ** The membership test *)

(** C9. [ipMatchesCIDRs] is a function into [bool] defined on every address
    and every table: it is false on the empty table; it is true exactly
    when the table splits into ranges that do not contain the address
    followed by a first range that does, and then whatever follows that
    range plays no part in the result; and it is false exactly when no
    range of the table contains the address. *)
Theorem ipMatchesCIDRs_first_match (ip : net.IP) (cidrs : list net.IPNet) :
  ipMatchesCIDRs ip [] = false
  /\ (ipMatchesCIDRs ip cidrs = true <->
      exists pre cidr post,
        cidrs = pre ++ cidr :: post
        /\ Forall (fun c => net.Contains c ip = false) pre
        /\ net.Contains cidr ip = true)
  /\ (forall pre cidr post post',
        Forall (fun c => net.Contains c ip = false) pre ->
        net.Contains cidr ip = true ->
        ipMatchesCIDRs ip (pre ++ cidr :: post) = true
        /\ ipMatchesCIDRs ip (pre ++ cidr :: post')
           = ipMatchesCIDRs ip (pre ++ cidr :: post))
  /\ (ipMatchesCIDRs ip cidrs = false <->
      Forall (fun c => net.Contains c ip = false) cidrs).
Proof.
  assert (Hhit : forall pre cidr post,
             Forall (fun c => net.Contains c ip = false) pre ->
             net.Contains cidr ip = true ->
             ipMatchesCIDRs ip (pre ++ cidr :: post) = true).
  { induction pre as [|c pre IH]; intros cidr post Hpre Hc; simpl.
    - now rewrite Hc.
    - inversion Hpre as [|? ? Hc0 Hpre']; subst. rewrite Hc0. now apply IH. }
  split; [reflexivity|]. split; [|split].
  - split.
    + induction cidrs as [|c rest IH]; simpl; [discriminate|].
      destruct (net.Contains c ip) eqn:Hc.
      * intros _. exists [], c, rest. now repeat split.
      * intros H. destruct (IH H) as (pre & cidr & post & -> & Hpre & Hcidr).
        exists (c :: pre), cidr, post. repeat split; auto.
    + intros (pre & cidr & post & -> & Hpre & Hcidr). now apply Hhit.
  - intros pre cidr post post' Hpre Hc. now rewrite !Hhit.
  - induction cidrs as [|c rest IH]; simpl.
    + split; auto.
    + destruct (net.Contains c ip) eqn:Hc.
      * split; [discriminate|]. intros H. inversion H; congruence.
      * rewrite IH. split; [now constructor|].
        intros H. now inversion H.
Qed.

(** ** The unchecked map access *)

(** With the current zone in the map, [ServeDNS] never dereferences nil. *)
Lemma ServeDNS_no_nil_dereference e cidrs :
  currentCIDRs e = Some cidrs ->
  forall env w r ms ms',
    ServeDNS e env w r ms <> Panicked NilPointerDereference ms'.
Proof.
  intros Hz env w r ms ms'. unfold ServeDNS.
  destruct (NextOrFailure Name (Next e) NewResponsePrinter r)
    as [[pw rcode] err].
  destruct err; [discriminate|].
  destruct (msg pw) as [m|]; [|discriminate].
  unfold writeFinalResponse.
  destruct (negb (dns.Rcode m =? dns.RcodeSuccess));
    [destruct (WriteMsg w m); discriminate|].
  destruct (Nat.leb (length (dns.Answer m)) 1);
    [destruct (WriteMsg w m); discriminate|].
  rewrite (classify_present e cidrs Hz). simpl.
  destruct (Nat.eqb _ 0); [destruct (WriteMsg w m); discriminate|].
  destruct (dns.Question_ m); [discriminate|].
  destruct (WriteMsg w _); discriminate.
Qed.

(** Two CNAME records and no zone entry at all: the response is served. *)
Lemma missing_zone_without_addresses : ~ missing_zone_always_dereferences.
Proof.
  intros H.
  pose (m := fixtures.reply fixtures.req
               [fixtures.CNAME "example.org." "a.example.net.";
                fixtures.CNAME "a.example.net." "b.example.net."]).
  specialize (H (fixtures.pluginWithoutZone "use1-az1" m) fixtures.env
                fixtures.w fixtures.req noMetrics m dns.RcodeSuccess).
  assert (Hcontra :
            ServeDNS (fixtures.pluginWithoutZone "use1-az1" m) fixtures.env
              fixtures.w fixtures.req noMetrics
            = Panicked NilPointerDereference noMetrics).
  { apply H; [reflexivity|reflexivity|simpl; lia|reflexivity]. }
  vm_compute in Hcontra. discriminate.
Qed.

(** ** setup: what the steps do to the registry and to the zone identifier *)

Section SetupFacts.

Variable ParseCIDR : string -> option net.IPNet.

Lemma appendCIDR_id l z c :
  currentAvailabilityZoneId (appendCIDR l z c) = currentAvailabilityZoneId l.
Proof. reflexivity. Qed.

Lemma appendCIDR_table l z c :
  table (appendCIDR l z c) z = table l z ++ [c].
Proof.
  unfold table, appendCIDR. simpl. rewrite lookup_insert_eq. simpl.
  now destruct (Zones l !! z).
Qed.

Lemma appendCIDR_other l z c z' :
  z' <> z -> Zones (appendCIDR l z c) !! z' = Zones l !! z'.
Proof. intros Hne. unfold appendCIDR. simpl. now rewrite lookup_insert_ne. Qed.

Lemma fold_addStaticCIDR z cidrArgs :
  forall l,
    let l' := fold_left (addStaticCIDR ParseCIDR z) cidrArgs l in
    table l' z = table l z ++ omap ParseCIDR cidrArgs
    /\ (forall z', z' <> z -> Zones l' !! z' = Zones l !! z')
    /\ currentAvailabilityZoneId l' = currentAvailabilityZoneId l.
Proof.
  induction cidrArgs as [|cidrStr rest IH]; intros l; simpl.
  - now rewrite app_nil_r.
  - destruct (IH (addStaticCIDR ParseCIDR z l cidrStr)) as (Ht & Ho & Hid).
    unfold addStaticCIDR in *.
    destruct (ParseCIDR cidrStr) as [cidr|]; simpl.
    + rewrite Ht, Hid, appendCIDR_table, <- app_assoc.
      repeat split; auto.
      intros z' Hne. rewrite (Ho z' Hne). now apply appendCIDR_other.
    + auto.
Qed.

Lemma processStatement_id l args :
  currentAvailabilityZoneId (processStatement ParseCIDR l args)
  = currentAvailabilityZoneId l.
Proof.
  unfold processStatement.
  destruct (Nat.leb 2 (length args)); [|reflexivity].
  destruct args as [|zoneName cidrArgs]; [reflexivity|].
  destruct (negb (String.eqb zoneName (currentAvailabilityZoneId l)));
    [reflexivity|].
  destruct (negb (regexp.MatchString awsZoneIDPattern zoneName));
    [reflexivity|].
  apply fold_addStaticCIDR.
Qed.

Lemma fold_processStatement_id corefile :
  forall l,
    currentAvailabilityZoneId (fold_left (processStatement ParseCIDR) corefile l)
    = currentAvailabilityZoneId l.
Proof.
  induction corefile as [|args rest IH]; intros l; simpl; [reflexivity|].
  rewrite IH. apply processStatement_id.
Qed.

Lemma install_l_final l : l_final (install l) = l.
Proof.
  unfold install. destruct (Zones l !! currentAvailabilityZoneId l) as [z|];
    [|reflexivity].
  now destruct (Nat.ltb 0 (length (CIDRs z))).
Qed.

Lemma addSubnetCIDR_id l block :
  currentAvailabilityZoneId (addSubnetCIDR ParseCIDR l block)
  = currentAvailabilityZoneId l.
Proof.
  unfold addSubnetCIDR. destruct block as [cidrStr|]; [|reflexivity].
  destruct (String.eqb cidrStr ""); [reflexivity|].
  now destruct (ParseCIDR cidrStr).
Qed.

Lemma addSubnet_id l subnet :
  currentAvailabilityZoneId (addSubnet ParseCIDR l subnet)
  = currentAvailabilityZoneId l.
Proof.
  unfold addSubnet.
  generalize (addSubnetCIDR_id l (CidrBlock subnet)).
  generalize (addSubnetCIDR ParseCIDR l (CidrBlock subnet)).
  induction (Ipv6CidrBlockAssociationSet subnet) as [|b bs IH];
    intros l0 Hl0; simpl; [assumption|].
  apply IH. now rewrite addSubnetCIDR_id.
Qed.

Lemma fold_addSubnet_id subnets :
  forall l,
    currentAvailabilityZoneId (fold_left (addSubnet ParseCIDR) subnets l)
    = currentAvailabilityZoneId l.
Proof.
  induction subnets as [|sn rest IH]; intros l; simpl; [reflexivity|].
  rewrite IH. apply addSubnet_id.
Qed.

(** After the discovery step the identifier is the discovered one, or is
    still unset. *)
Lemma discover_id imds ec2 :
  currentAvailabilityZoneId (discover ParseCIDR imds ec2 l_init)
  = if discoveryYields (imds tt) then (imds tt).1.1 else "".
Proof.
  unfold discover, discoveryYields.
  destruct (imds tt) as [[az region] err]. simpl.
  destruct err; [reflexivity|].
  destruct (negb (String.eqb az "") && negb (String.eqb region ""));
    [|reflexivity].
  simpl. destruct (ec2 context.Background az region) as [subnets err].
  destruct err; [reflexivity|].
  now rewrite fold_addSubnet_id.
Qed.

Lemma discover_nothing imds ec2 :
  discoveryYields (imds tt) = false ->
  discover ParseCIDR imds ec2 l_init = l_init.
Proof.
  unfold discover, discoveryYields.
  destruct (imds tt) as [[az region] err].
  destruct err; [reflexivity|]. now intros ->.
Qed.

Lemma discoveryYields_nonempty res :
  discoveryYields res = true -> res.1.1 <> "".
Proof.
  destruct res as [[az region] err]. simpl.
  destruct err; [discriminate|].
  destruct (String.eqb az "") eqn:E; [discriminate|].
  intros _. now apply String.eqb_neq in E.
Qed.

(** The identifier after the two steps that may set it. *)
Lemma envOverride_discover_id imds ec2 Getenv :
  currentAvailabilityZoneId
    (envOverride Getenv (discover ParseCIDR imds ec2 l_init))
  = if discoveryYields (imds tt) then (imds tt).1.1
    else if regexp.MatchString awsZoneIDPattern (Getenv "AWS_ZONE_ID")
         then Getenv "AWS_ZONE_ID" else "".
Proof.
  unfold envOverride. rewrite (discover_id imds ec2).
  destruct (discoveryYields (imds tt)) eqn:Hd.
  - pose proof (discoveryYields_nonempty _ Hd) as Hne.
    apply String.eqb_neq in Hne. rewrite Hne.
    rewrite (discover_id imds ec2). now rewrite Hd.
  - simpl.
    destruct (regexp.MatchString awsZoneIDPattern (Getenv "AWS_ZONE_ID"));
      [reflexivity|].
    rewrite (discover_id imds ec2), Hd. reflexivity.
Qed.

(** An identifier returned by [getConfigFromIMDSv2] without an error has
    passed the pattern. *)
Lemma getConfigFromIMDSv2_valid (TrimSpace : string -> string) aws azID region :
  getConfigFromIMDSv2 TrimSpace aws tt = (azID, region, None) ->
  regexp.MatchString awsZoneIDPattern azID = true.
Proof.
  unfold getConfigFromIMDSv2.
  destruct (LoadDefaultConfig aws _); [discriminate|].
  destruct (GetMetadata aws _ "placement/availability-zone-id")
    as [err|[err|azIDBytes]]; try discriminate.
  destruct (regexp.MatchString awsZoneIDPattern (TrimSpace azIDBytes)) eqn:Hm;
    simpl; [|discriminate].
  destruct (GetMetadata aws _ "placement/region")
    as [err|[err|regionBytes]]; try discriminate.
  now intros [= <- _].
Qed.

(** With the metadata lookup of the production build, the identifier under
    which the Corefile is read is of the zone pattern: [setup] returns
    before the Corefile when it is empty. *)
Lemma production_zone_id_matches (TrimSpace : string -> string)
    aws ec2 Getenv :
  let l := envOverride Getenv
             (discover ParseCIDR (getConfigFromIMDSv2 TrimSpace aws) ec2
                l_init) in
  currentAvailabilityZoneId l = ""
  \/ regexp.MatchString awsZoneIDPattern (currentAvailabilityZoneId l) = true.
Proof.
  simpl. rewrite envOverride_discover_id.
  destruct (getConfigFromIMDSv2 TrimSpace aws tt) as [[azID region] err] eqn:E.
  unfold discoveryYields. simpl.
  destruct err as [err|].
  - destruct (regexp.MatchString awsZoneIDPattern (Getenv "AWS_ZONE_ID"))
      eqn:Hm; auto.
  - apply getConfigFromIMDSv2_valid in E.
    destruct (negb (String.eqb azID "") && negb (String.eqb region "")); auto.
    destruct (regexp.MatchString awsZoneIDPattern (Getenv "AWS_ZONE_ID"))
      eqn:Hm; auto.
Qed.

End SetupFacts.

(** ** The static configuration merge *)

(** C8. One statement of the Corefile, processed with current zone [id]:
    a statement that names another zone leaves the plugin value, and so the
    registry, exactly as it was; a statement that names the current zone
    (an identifier of the zone pattern) with one or more CIDR arguments
    appends to the current zone's table the networks of the arguments that
    parse, in the order of the statement, and nothing for an argument that
    does not parse; no other zone is touched. *)
Theorem processStatement_merge (ParseCIDR : string -> option net.IPNet)
    (l : Zoneawareness) :
  let id := currentAvailabilityZoneId l in
  (forall zoneName cidrArgs,
     zoneName <> id ->
     processStatement ParseCIDR l (zoneName :: cidrArgs) = l)
  /\ (forall cidrStr cidrArgs,
        regexp.MatchString awsZoneIDPattern id = true ->
        let l' := processStatement ParseCIDR l (id :: cidrStr :: cidrArgs) in
        table l' id = table l id ++ omap ParseCIDR (cidrStr :: cidrArgs)
        /\ (forall s cidr,
              In s (cidrStr :: cidrArgs) -> ParseCIDR s = Some cidr ->
              In cidr (table l' id))
        /\ (forall z, z <> id -> Zones l' !! z = Zones l !! z)
        /\ currentAvailabilityZoneId l' = id).
Proof.
  simpl. split.
  - intros zoneName cidrArgs Hne. unfold processStatement.
    destruct (Nat.leb 2 (length (zoneName :: cidrArgs))); [|reflexivity].
    apply String.eqb_neq in Hne. now rewrite Hne.
  - intros cidrStr cidrArgs Hpat.
    assert (Hstep :
              processStatement ParseCIDR l
                (currentAvailabilityZoneId l :: cidrStr :: cidrArgs)
              = fold_left (addStaticCIDR ParseCIDR (currentAvailabilityZoneId l))
                  (cidrStr :: cidrArgs) l).
    { unfold processStatement.
      replace (Nat.leb 2 (length (currentAvailabilityZoneId l
                                  :: cidrStr :: cidrArgs))) with true
        by reflexivity.
      now rewrite String.eqb_refl, Hpat. }
    simpl. rewrite Hstep.
    destruct (fold_addStaticCIDR ParseCIDR (currentAvailabilityZoneId l)
                (cidrStr :: cidrArgs) l) as (Ht & Ho & Hid).
    repeat split; try assumption.
    intros s cidr Hin Hs. rewrite Ht. apply in_or_app. right.
    apply list_elem_of_In. apply list_elem_of_omap. exists s.
    split; [now apply list_elem_of_In|assumption].
Qed.

Lemma processStatement_merge_witness :
  let l := setZoneId l_init "use1-az1" in
  let l' := processStatement ipv4text.ParseCIDR l
              ["use1-az1"; "192.168.1.0/24"; "10.0.0.0/33"; "172.16.0.0/16"] in
  processStatement ipv4text.ParseCIDR l ["usw2-az2"; "192.168.1.0/24"] = l
  /\ table l' "use1-az1"
     = [] ++ [ {| net.IPNet_IP := [192; 168; 1; 0];
                  net.IPNet_Mask := [255; 255; 255; 0] |};
               {| net.IPNet_IP := [172; 16; 0; 0];
                  net.IPNet_Mask := [255; 255; 0; 0] |} ].
Proof.
  intros l l'.
  destruct (processStatement_merge ipv4text.ParseCIDR l) as [Hskip Hadd].
  split.
  - apply Hskip. discriminate.
  - destruct (Hadd "192.168.1.0/24" ["10.0.0.0/33"; "172.16.0.0/16"])
      as (Ht & _).
    + reflexivity.
    + exact Ht.
Defined.

(** ** The zone identifier *)

(** C7. The zone identifier with which [setup] ends is the one of the
    metadata lookup when that lookup yields one; otherwise the value of
    AWS_ZONE_ID when that value matches the zone pattern; otherwise it is
    still empty, and then nothing is installed, the registry is empty and
    the plugin is not marked as synced, whatever the Corefile says.  The
    field starts empty, is written by at most one of the two steps
    (discovery or override), and by nothing after them; when discovery
    yields an identifier the environment plays no part in the result. *)
Theorem zone_id_sources (ParseCIDR : string -> option net.IPNet)
    (imds : unit -> string * string * option Error)
    (ec2 : context.Context -> string -> string -> list Subnet * option Error)
    (Getenv : string -> string) (corefile : list (list string)) :
  let l1 := discover ParseCIDR imds ec2 l_init in
  let l2 := envOverride Getenv l1 in
  let res := setup ParseCIDR imds ec2 Getenv corefile in
  let id := currentAvailabilityZoneId (l_final res) in
  id = (if discoveryYields (imds tt) then (imds tt).1.1
        else if regexp.MatchString awsZoneIDPattern (Getenv "AWS_ZONE_ID")
             then Getenv "AWS_ZONE_ID" else "")
  /\ (currentAvailabilityZoneId l_init = ""
      /\ (currentAvailabilityZoneId l1 = currentAvailabilityZoneId l_init
          \/ currentAvailabilityZoneId l2 = currentAvailabilityZoneId l1)
      /\ id = currentAvailabilityZoneId l2)
  /\ (discoveryYields (imds tt) = true ->
      forall Getenv', setup ParseCIDR imds ec2 Getenv' corefile = res)
  /\ (id <> "" -> id <> (imds tt).1.1 ->
      id = Getenv "AWS_ZONE_ID"
      /\ regexp.MatchString awsZoneIDPattern id = true)
  /\ (discoveryYields (imds tt) = false ->
      regexp.MatchString awsZoneIDPattern (Getenv "AWS_ZONE_ID") = false ->
      id = "" /\ Plugin res = [] /\ Zones (l_final res) = ∅
      /\ HasSynced (l_final res) = false).
Proof.
  simpl.
  assert (Hfinal :
            currentAvailabilityZoneId
              (l_final (setup ParseCIDR imds ec2 Getenv corefile))
            = currentAvailabilityZoneId
                (envOverride Getenv (discover ParseCIDR imds ec2 l_init))).
  { unfold setup.
    destruct (String.eqb (currentAvailabilityZoneId
                (envOverride Getenv (discover ParseCIDR imds ec2 l_init))) "");
      [reflexivity|].
    now rewrite install_l_final, fold_processStatement_id. }
  pose proof (envOverride_discover_id ParseCIDR imds ec2 Getenv) as Hl2.
  split; [congruence|]. split; [|split; [|split]].
  - split; [reflexivity|]. split; [|assumption].
    unfold envOverride. rewrite (discover_id ParseCIDR imds ec2).
    destruct (discoveryYields (imds tt)) eqn:Hd.
    + right. pose proof (discoveryYields_nonempty _ Hd) as Hne.
      apply String.eqb_neq in Hne. rewrite Hne.
      rewrite (discover_id ParseCIDR imds ec2). now rewrite Hd.
    + now left.
  - intros Hd Getenv'. unfold setup, envOverride.
    rewrite (discover_id ParseCIDR imds ec2), Hd.
    pose proof (discoveryYields_nonempty _ Hd) as Hne.
    apply String.eqb_neq in Hne. now rewrite Hne.
  - rewrite Hfinal, Hl2.
    destruct (discoveryYields (imds tt)); [congruence|].
    destruct (regexp.MatchString awsZoneIDPattern (Getenv "AWS_ZONE_ID"))
      eqn:Hm; [|congruence].
    intros _ _. now split.
  - intros Hd Hm. unfold setup, envOverride.
    rewrite (discover_nothing ParseCIDR imds ec2 Hd). simpl. rewrite Hm.
    simpl. now repeat split.
Qed.

Lemma zone_id_sources_witness :
  let res := setup ipv4text.ParseCIDR mocks.noIMDS mocks.noEC2
               (mocks.Env "use1-az1") [["use1-az1"; "192.168.1.0/24"]] in
  currentAvailabilityZoneId (l_final res) = "use1-az1"
  /\ regexp.MatchString awsZoneIDPattern
       (currentAvailabilityZoneId (l_final res)) = true.
Proof.
  intros res.
  destruct (zone_id_sources ipv4text.ParseCIDR mocks.noIMDS mocks.noEC2
              (mocks.Env "use1-az1") [["use1-az1"; "192.168.1.0/24"]])
    as (_ & _ & _ & Hused & _).
  apply Hused; vm_compute; discriminate.
Defined.

(** ** The plugin is installed only with its zone *)

Lemma setup_installs_with_zone (ParseCIDR : string -> option net.IPNet)
    imds ec2 Getenv corefile p next :
  In p (Plugin (setup ParseCIDR imds ec2 Getenv corefile)) ->
  exists zone,
    Zones (p next) !! currentAvailabilityZoneId (p next) = Some zone
    /\ CIDRs zone <> [].
Proof.
  unfold setup.
  destruct (String.eqb _ ""); [intros []|].
  unfold install.
  set (l := fold_left (processStatement ParseCIDR) corefile _).
  destruct (Zones l !! currentAvailabilityZoneId l) as [zone|] eqn:Hz;
    [|intros []].
  destruct (Nat.ltb 0 (length (CIDRs zone))) eqn:Hlen; [|intros []].
  intros [<-|[]]. exists zone. split; [exact Hz|].
  apply Nat.ltb_lt in Hlen. intros Hnil. rewrite Hnil in Hlen.
  simpl in Hlen. lia.
Qed.

(** C10 (amended). [ServeDNS] reads [e.Zones[id].CIDRs] without a presence
    check.  Every plugin value that [setup] installs has its current zone
    in the map with at least one range, and on such a value no request
    makes [ServeDNS] dereference nil.  On a value whose map lacks the
    current identifier, a successful response with two or more answers
    makes [ServeDNS] dereference the missing entry when at least one answer
    carries an address (before any instrument is touched); when no answer
    carries an address the map is never read and the response is served
    unchanged. *)
Theorem unchecked_zone_lookup :
  (forall (ParseCIDR : string -> option net.IPNet) imds ec2 Getenv corefile
          p next,
     In p (Plugin (setup ParseCIDR imds ec2 Getenv corefile)) ->
     (exists zone,
        Zones (p next) !! currentAvailabilityZoneId (p next) = Some zone
        /\ CIDRs zone <> [])
     /\ (forall env w r ms ms',
           ServeDNS (p next) env w r ms
           <> Panicked NilPointerDereference ms'))
  /\ (forall e env w r ms m rcode,
        responds e r m rcode ->
        dns.Rcode m = dns.RcodeSuccess ->
        (2 <= length (dns.Answer m))%nat ->
        Zones e !! currentAvailabilityZoneId e = None ->
        (Exists (fun rr => extractRRIP rr <> None) (dns.Answer m) ->
         ServeDNS e env w r ms = Panicked NilPointerDereference ms)
        /\ (Forall (fun rr => extractRRIP rr = None) (dns.Answer m) ->
            exists rcode',
              ServeDNS e env w r ms
              = Returned rcode' (WriteMsg w m) (Some m)
                  (observeLatency ms (server env) (reorderElapsed env)))).
Proof.
  split.
  - intros ParseCIDR imds ec2 Getenv corefile p next Hin.
    destruct (setup_installs_with_zone _ _ _ _ _ _ next Hin)
      as (zone & Hz & Hne).
    split; [now exists zone|].
    apply (ServeDNS_no_nil_dereference (p next) (CIDRs zone)).
    unfold currentCIDRs. now rewrite Hz.
  - intros e env w r ms m rcode Hnext Hrc Hlen Hz.
    rewrite (ServeDNS_long _ _ _ _ _ _ _ Hnext Hrc Hlen).
    apply currentCIDRs_None in Hz. split.
    + intros Hex. now rewrite (classify_missing e Hz _ [] [] Hex).
    + intros Hall. rewrite (classify_no_address e _ [] [] Hall). simpl.
      destruct (writeFinalResponse_returns w m
                  (observeLatency ms (server env) (reorderElapsed env)))
        as (rcode' & -> & _).
      now exists rcode'.
Qed.

Lemma unchecked_zone_lookup_witness :
  (exists zone,
     Zones (pluginOf
              (l_final (setup ipv4text.ParseCIDR
                          (mocks.IMDS "use1-az1" "us-east-1") mocks.noEC2
                          mocks.noEnv
                          [["use1-az1"; "192.168.1.0/24"; "10.0.0.0/8"]]))
              None)
     !! "use1-az1" = Some zone /\ CIDRs zone <> [])
  /\ ServeDNS
       (fixtures.pluginWithoutZone "use1-az1"
          (fixtures.reply fixtures.req fixtures.answers3))
       fixtures.env fixtures.w fixtures.req noMetrics
     = Panicked NilPointerDereference noMetrics.
Proof.
  destruct unchecked_zone_lookup as [Hsetup Hmissing]. split.
  - destruct (Hsetup ipv4text.ParseCIDR (mocks.IMDS "use1-az1" "us-east-1")
                mocks.noEC2 mocks.noEnv
                [["use1-az1"; "192.168.1.0/24"; "10.0.0.0/8"]]
                (pluginOf
                   (l_final (setup ipv4text.ParseCIDR
                               (mocks.IMDS "use1-az1" "us-east-1")
                               mocks.noEC2 mocks.noEnv
                               [["use1-az1"; "192.168.1.0/24"; "10.0.0.0/8"]])))
                None) as [Hzone _].
    + left. reflexivity.
    + exact Hzone.
  - apply (Hmissing
             (fixtures.pluginWithoutZone "use1-az1"
                (fixtures.reply fixtures.req fixtures.answers3))
             fixtures.env fixtures.w fixtures.req noMetrics
             (fixtures.reply fixtures.req fixtures.answers3)
             dns.RcodeSuccess).
    + reflexivity.
    + reflexivity.
    + simpl. lia.
    + reflexivity.
    + apply Exists_cons_hd. discriminate.
Defined.

Lemma ipMatchesCIDRs_first_match_witness :
  let ip := net.IPv4 10 0 0 1 in
  let other := {| net.IPNet_IP := [192; 168; 1; 0];
                  net.IPNet_Mask := [255; 255; 255; 0] |} in
  let zone := {| net.IPNet_IP := [10; 0; 0; 0];
                 net.IPNet_Mask := [255; 255; 255; 0] |} in
  ipMatchesCIDRs ip ([other] ++ zone :: [other; other]) = true
  /\ ipMatchesCIDRs ip ([other] ++ zone :: [])
     = ipMatchesCIDRs ip ([other] ++ zone :: [other; other]).
Proof.
  intros ip other zone.
  destruct (ipMatchesCIDRs_first_match ip []) as (_ & _ & Hfirst & _).
  apply (Hfirst [other] zone [other; other] []).
  - repeat constructor.
  - reflexivity.
Defined.

(** ** The contexts of the two lookups *)

(** [setup] sees the metadata lookup through its one call, and the
    inventory lookup through calls under [context.Background] only. *)
Lemma setup_ext (ParseCIDR : string -> option net.IPNet)
    imds imds' ec2 ec2' Getenv corefile :
  imds tt = imds' tt ->
  (forall azID region,
     ec2 context.Background azID region = ec2' context.Background azID region) ->
  setup ParseCIDR imds ec2 Getenv corefile
  = setup ParseCIDR imds' ec2' Getenv corefile.
Proof.
  intros Himds Hec2.
  assert (Hd : discover ParseCIDR imds ec2 l_init
               = discover ParseCIDR imds' ec2' l_init).
  { unfold discover. rewrite <- Himds.
    destruct (imds tt) as [[az region] err].
    destruct err; [reflexivity|].
    destruct (negb (String.eqb az "") && negb (String.eqb region ""));
      [|reflexivity].
    simpl. now rewrite Hec2. }
  unfold setup. now rewrite Hd.
Qed.

Lemma getConfigFromIMDSv2_context (TrimSpace : string -> string) aws :
  getConfigFromIMDSv2 TrimSpace aws tt
  = getConfigFromIMDSv2 TrimSpace
      (atContext (context.WithTimeout context.Background imdsTimeout) aws) tt.
Proof. reflexivity. Qed.

Lemma getSubnetsFromEC2_context aws ctx azID region :
  getSubnetsFromEC2 aws ctx azID region
  = getSubnetsFromEC2 (atContext ctx aws) ctx azID region.
Proof. reflexivity. Qed.

(** C2. The metadata lookup makes every call under a context with a
    deadline of two seconds.  The inventory lookup does not: [setup] hands
    it [context.Background()], which has no deadline, and the lookup passes
    that context on to the SDK.  So with the functions of the production
    build, [setup] is the same function of the metadata service as answered
    under the two-second context and of the inventory service as answered
    under the background context; and an inventory service that answers
    only calls with a deadline gives [setup] nothing: its subnet is not
    discovered and no plugin is installed, where a call under the timeout
    of the metadata lookup would have installed one. *)
Theorem setup_calls_EC2_without_deadline :
  context.Deadline (context.WithTimeout context.Background imdsTimeout)
  = Some (2 * time.Second)
  /\ context.Deadline context.Background = None
  /\ (forall (ParseCIDR : string -> option net.IPNet)
             (TrimSpace : string -> string) aws Getenv corefile,
        setup ParseCIDR (getConfigFromIMDSv2 TrimSpace aws)
          (getSubnetsFromEC2 aws) Getenv corefile
        = setup ParseCIDR
            (getConfigFromIMDSv2 TrimSpace
               (atContext
                  (context.WithTimeout context.Background imdsTimeout) aws))
            (fun _ => getSubnetsFromEC2 (atContext context.Background aws)
                        context.Background)
            Getenv corefile)
  /\ (let imds := mocks.IMDS "use1-az1" "us-east-1" in
      let ec2 := mocks.EC2WantsDeadline [mocks.subnet "subnet-1" "10.0.1.0/24"] in
      Plugin (setup ipv4text.ParseCIDR imds ec2 mocks.noEnv []) = []
      /\ table (l_final (setup ipv4text.ParseCIDR imds ec2 mocks.noEnv []))
           "use1-az1" = []
      /\ length
           (Plugin
              (setup ipv4text.ParseCIDR imds
                 (fun _ =>
                    ec2 (context.WithTimeout context.Background imdsTimeout))
                 mocks.noEnv [])) = 1%nat).
Proof.
  split; [reflexivity|]. split; [reflexivity|]. split.
  - intros ParseCIDR TrimSpace aws Getenv corefile.
    apply setup_ext; reflexivity.
  - repeat split; vm_compute; reflexivity.
Qed.

(** ** TestSetup, case by case *)

Example setup_basic_valid_config :
  let res := setup ipv4text.ParseCIDR (mocks.IMDS "use1-az1" "us-east-1")
               mocks.noEC2 mocks.noEnv
               [["use1-az1"; "192.168.1.0/24"; "10.0.0.0/8"]] in
  length (Plugin res) = 1%nat
  /\ table (l_final res) "use1-az1"
     = [cidr4 192 168 1 0 24; cidr4 10 0 0 0 8].
Proof. vm_compute. split; reflexivity. Qed.

Example setup_other_zone_ignored :
  Plugin (setup ipv4text.ParseCIDR (mocks.IMDS "use1-az1" "us-east-1")
            mocks.noEC2 mocks.noEnv [["usw2-az2"; "192.168.1.0/24"]]) = [].
Proof. vm_compute. reflexivity. Qed.

Example setup_invalid_CIDR_skipped :
  let res := setup ipv4text.ParseCIDR (mocks.IMDS "use1-az1" "us-east-1")
               mocks.noEC2 mocks.noEnv
               [["use1-az1"; "192.168.1.0/24"; "10.0.0.0/33"; "172.16.0.0/16"]] in
  length (Plugin res) = 1%nat
  /\ table (l_final res) "use1-az1"
     = [cidr4 192 168 1 0 24; cidr4 172 16 0 0 16].
Proof. vm_compute. split; reflexivity. Qed.

Example setup_env_var_used :
  let res := setup ipv4text.ParseCIDR mocks.noIMDS mocks.noEC2
               (mocks.Env "use1-az1") [["use1-az1"; "192.168.1.0/24"]] in
  length (Plugin res) = 1%nat
  /\ currentAvailabilityZoneId (l_final res) = "use1-az1"
  /\ table (l_final res) "use1-az1" = [cidr4 192 168 1 0 24].
Proof. vm_compute. repeat split; reflexivity. Qed.

Example setup_no_IMDS_no_env :
  Plugin (setup ipv4text.ParseCIDR mocks.noIMDS mocks.noEC2 mocks.noEnv
            [["use1-az1"; "192.168.1.0/24"]]) = [].
Proof. vm_compute. reflexivity. Qed.

Example setup_discovery_then_static :
  let res := setup ipv4text.ParseCIDR (mocks.IMDS "use1-az1" "us-east-1")
               (mocks.EC2 [mocks.subnet "subnet-1" "10.0.1.0/24";
                           {| SubnetId := "subnet-no-cidr"; CidrBlock := None;
                              Ipv6CidrBlockAssociationSet := [] |}])
               mocks.noEnv [["use1-az1"; "10.0.2.0/24"]] in
  length (Plugin res) = 1%nat
  /\ table (l_final res) "use1-az1"
     = [cidr4 10 0 1 0 24; cidr4 10 0 2 0 24].
Proof. vm_compute. split; reflexivity. Qed.

Example setup_only_zone_name :
  Plugin (setup ipv4text.ParseCIDR (mocks.IMDS "use1-az1" "us-east-1")
            mocks.noEC2 mocks.noEnv [["use1-az1"]]) = [].
Proof. vm_compute. reflexivity. Qed.

(** ** TestZoneawareness and TestMetrics *)

Example ServeDNS_TestZoneawareness :
  sentOf (ServeDNS
            (fixtures.plugin "euc1-az2" ["10.0.0.0/24"]
               (fixtures.reply fixtures.req fixtures.answers3))
            fixtures.env fixtures.w fixtures.req noMetrics)
  = Some (fixtures.reply fixtures.req
            [fixtures.A "example.org." 10 0 0 1;
             fixtures.A "example.org." 10 0 0 2;
             fixtures.A "example.org." 192 168 1 1]).
Proof. reflexivity. Qed.

Example ServeDNS_TestMetrics :
  let m := fixtures.reply fixtures.req
             [fixtures.A "example.org." 10 0 0 1;
              fixtures.A "example.org." 192 168 1 10;
              fixtures.A "example.org." 10 0 0 2] in
  let ms := metricsOf
              (ServeDNS (fixtures.plugin "test-az-1" ["192.168.1.0/24"] m)
                 fixtures.env fixtures.w fixtures.req noMetrics) in
  counterValue (reorderedQueriesCount ms) "" = 1
  /\ counterValue (reorderCount ms) "" = 1
  /\ length (observations (reorderLatency ms) "") = 1%nat.
Proof. vm_compute. repeat split; reflexivity. Qed.

Example ServeDNS_no_answers :
  ServeDNS (fixtures.plugin "use2-az1" ["192.0.2.0/24"]
              (fixtures.reply fixtures.req []))
    fixtures.env fixtures.w fixtures.req noMetrics
  = Returned dns.RcodeSuccess None (Some (fixtures.reply fixtures.req []))
      noMetrics.
Proof. reflexivity. Qed.

(** * Further properties of the request path *)

(** ** Calls that have no response to reorder *)

(** X1. When there is no response to look at, [ServeDNS] hands back what it
    got and does nothing else: without a next handler it returns
    [RcodeServerFailure] with the error of [plugin.NextOrFailure]; when the
    next handler returns an error it returns that handler's code and error,
    and whatever the handler wrote is not passed on; when the handler wrote
    nothing it returns the handler's code.  In all three cases nothing is
    written to the client and no instrument changes. *)
Theorem ServeDNS_without_response e env w r ms :
  (Next e = None ->
   ServeDNS e env w r ms
   = Returned dns.RcodeServerFailure
       (Some "plugin/zoneawareness: no next plugin found") None ms)
  /\ (forall h err,
        Next e = Some h -> hr_err (h r) = Some err ->
        ServeDNS e env w r ms
        = Returned (hr_rcode (h r)) (Some err) None ms)
  /\ (forall h,
        Next e = Some h -> hr_err (h r) = None -> hr_writes (h r) = [] ->
        ServeDNS e env w r ms = Returned (hr_rcode (h r)) None None ms).
Proof.
  unfold ServeDNS, NextOrFailure. repeat split.
  - now intros ->.
  - intros h err -> Herr. now rewrite Herr.
  - intros h -> Herr Hw. now rewrite Herr, Hw.
Qed.

Lemma ServeDNS_without_response_witness :
  let failing : Handler :=
    fun _ => {| hr_writes := [fixtures.reply fixtures.req fixtures.answers3];
                hr_rcode := dns.RcodeServerFailure;
                hr_err := Some "upstream timeout" |} in
  let e := withNext (fixtures.plugin "euc1-az2" ["10.0.0.0/24"]
                       (fixtures.reply fixtures.req [])) failing in
  ServeDNS e fixtures.env fixtures.w fixtures.req noMetrics
  = Returned dns.RcodeServerFailure (Some "upstream timeout") None noMetrics.
Proof.
  intros failing e.
  destruct (ServeDNS_without_response e fixtures.env fixtures.w fixtures.req
              noMetrics) as (_ & Herr & _).
  apply (Herr failing "upstream timeout"); reflexivity.
Defined.

(** ** The response printer keeps the last message *)

Lemma fold_WriteMsg_last pre m pw :
  fold_left ResponsePrinter_WriteMsg (pre ++ [m]) pw = {| msg := Some m |}.
Proof. now rewrite fold_left_app. Qed.

Lemma responds_last e h r pre m :
  Next e = Some h ->
  hr_writes (h r) = pre ++ [m] ->
  hr_err (h r) = None ->
  responds e r m (hr_rcode (h r)).
Proof.
  intros Hn Hw He. unfold responds, NextOrFailure.
  now rewrite Hn, Hw, He, fold_WriteMsg_last.
Qed.

(** X2. Of the messages the next handler writes, only the last one counts:
    a handler that writes several messages is served exactly as one that
    writes the last of them alone; the earlier ones never reach the client
    nor the instruments. *)
Theorem ServeDNS_last_write_wins e env w r ms h pre m :
  Next e = Some h ->
  hr_writes (h r) = pre ++ [m] ->
  ServeDNS e env w r ms
  = ServeDNS
      (withNext e (fun _ => {| hr_writes := [m]; hr_rcode := hr_rcode (h r);
                               hr_err := hr_err (h r) |}))
      env w r ms.
Proof.
  intros Hn Hw. unfold ServeDNS, NextOrFailure. rewrite Hn, Hw. simpl.
  rewrite fold_WriteMsg_last.
  destruct (hr_err (h r)); [reflexivity|]. simpl.
  destruct (negb (dns.Rcode m =? dns.RcodeSuccess)); [reflexivity|].
  destruct (Nat.leb (length (dns.Answer m)) 1); [reflexivity|].
  assert (Hc : forall answers p o,
             classify
               (withNext e (fun _ => {| hr_writes := [m];
                                        hr_rcode := hr_rcode (h r);
                                        hr_err := None |})) answers p o
             = classify e answers p o).
  { induction answers as [|rr rest IH]; intros p o; simpl; [reflexivity|].
    destruct (extractRRIP rr); [|apply IH].
    destruct (Zones e !! currentAvailabilityZoneId e); [|reflexivity].
    destruct (ipMatchesCIDRs _ _); apply IH. }
  now rewrite Hc.
Qed.

Lemma ServeDNS_last_write_wins_witness :
  let first := fixtures.reply fixtures.req fixtures.answersNoMatch in
  let last := fixtures.reply fixtures.req fixtures.answers3 in
  let h : Handler :=
    fun _ => {| hr_writes := [first] ++ [last];
                hr_rcode := dns.RcodeSuccess; hr_err := None |} in
  let e := withNext (fixtures.plugin "euc1-az2" ["10.0.0.0/24"] first) h in
  ServeDNS e fixtures.env fixtures.w fixtures.req noMetrics
  = ServeDNS
      (withNext e (fun _ => {| hr_writes := [last];
                               hr_rcode := dns.RcodeSuccess;
                               hr_err := None |}))
      fixtures.env fixtures.w fixtures.req noMetrics.
Proof.
  intros first last h e.
  apply (ServeDNS_last_write_wins e fixtures.env fixtures.w fixtures.req
           noMetrics h [first] last); reflexivity.
Defined.

(** ** What a call can send, and what it does to the instruments *)

Lemma ServeDNS_response_or_not e env w r ms :
  (exists rcode err, ServeDNS e env w r ms = Returned rcode err None ms)
  \/ (exists m rcode, responds e r m rcode).
Proof.
  unfold ServeDNS, responds.
  destruct (NextOrFailure Name (Next e) NewResponsePrinter r)
    as [[pw rcode] err].
  destruct err as [err|]; [left; eauto|].
  destruct pw as [[m|]]; simpl; [right; eauto|left; eauto].
Qed.

Lemma sentOf_writeFinalResponse w m ms :
  sentOf (writeFinalResponse w m ms) = Some m.
Proof. unfold writeFinalResponse. now destruct (WriteMsg w m). Qed.

Lemma metricsOf_writeFinalResponse w m ms :
  metricsOf (writeFinalResponse w m ms) = ms.
Proof. unfold writeFinalResponse. now destruct (WriteMsg w m). Qed.

Lemma withAnswer_same (m : dns.Msg) : dns.withAnswer m (dns.Answer m) = m.
Proof. now destruct m. Qed.

(** Without the zone's entry a loop that completes has met no address. *)
Lemma classify_missing_Some e answers p o :
  currentCIDRs e = None ->
  classify e answers [] [] = Some (p, o) ->
  p = [] /\ o = answers
  /\ Forall (fun rr => extractRRIP rr = None) answers.
Proof.
  intros Hz Hc.
  assert (Hdec : forall rr : dns.RR,
             {extractRRIP rr <> None} + {~ extractRRIP rr <> None})
    by (intros rr; destruct (extractRRIP rr); [left|right]; congruence).
  destruct (List.Exists_dec (fun rr => extractRRIP rr <> None) answers Hdec)
    as [Hex|Hno].
  - rewrite (classify_missing e Hz _ [] [] Hex) in Hc. discriminate.
  - assert (Hall : Forall (fun rr => extractRRIP rr = None) answers).
    { apply List.Forall_forall. intros rr Hin.
      destruct (extractRRIP rr) eqn:E; [|reflexivity].
      exfalso. apply Hno. apply List.Exists_exists. exists rr.
      split; [assumption|congruence]. }
    rewrite (classify_no_address e _ [] [] Hall) in Hc.
    injection Hc as <- <-. auto.
Qed.

Lemma reorder_Permutation e answers once :
  reorder e answers = Some once -> Permutation answers once.
Proof.
  destruct (currentCIDRs e) as [cidrs|] eqn:Hz.
  - rewrite (reorder_present e cidrs _ Hz). intros [= <-].
    apply (Permutation_filter_split (isPreferred cidrs)).
  - intros H. destruct (reorder_missing e answers once Hz H) as [-> _].
    reflexivity.
Qed.

(** X3. A response with no answer or a single answer is not looked at any
    further: it is written to the client as it is, whatever its status and
    whatever the zones of the plugin (a missing zone entry cannot make this
    path panic), and no instrument changes. *)
Theorem ServeDNS_short_response e env w r ms m rcode :
  responds e r m rcode ->
  (length (dns.Answer m) <= 1)%nat ->
  exists rcode',
    ServeDNS e env w r ms = Returned rcode' (WriteMsg w m) (Some m) ms
    /\ (forall e', Next e' = Next e ->
          ServeDNS e' env w r ms = ServeDNS e env w r ms).
Proof.
  intros Hnext Hlen.
  rewrite (ServeDNS_short _ env w _ ms _ _ Hnext Hlen).
  destruct (writeFinalResponse_returns w m ms) as (rcode' & Heq & _).
  exists rcode'. split; [assumption|].
  intros e' He'.
  assert (Hnext' : responds e' r m rcode)
    by (unfold responds in *; now rewrite He').
  apply (ServeDNS_short _ env w _ ms _ _ Hnext' Hlen).
Qed.

Lemma ServeDNS_short_response_witness :
  let m := fixtures.reply fixtures.req [fixtures.A "example.org." 10 0 0 1] in
  exists rcode',
    ServeDNS (fixtures.pluginWithoutZone "euc1-az2" m) fixtures.env
      fixtures.w fixtures.req noMetrics
    = Returned rcode' None (Some m) noMetrics
    /\ (forall e', Next e' = Some (mockHandler m) ->
          ServeDNS e' fixtures.env fixtures.w fixtures.req noMetrics
          = ServeDNS (fixtures.pluginWithoutZone "euc1-az2" m) fixtures.env
              fixtures.w fixtures.req noMetrics).
Proof.
  intros m.
  apply (ServeDNS_short_response (fixtures.pluginWithoutZone "euc1-az2" m)
           fixtures.env fixtures.w fixtures.req noMetrics m dns.RcodeSuccess).
  - reflexivity.
  - simpl. lia.
Defined.

(** X4. Whatever [ServeDNS] writes to the client is the response of the
    next handler with its answer section rearranged: the answers written
    are a permutation of the answers received (no record is dropped, added
    or duplicated), and the header, the question, the authority and the
    additional sections are the ones received. *)
Theorem ServeDNS_sends_permutation e env w r ms m' :
  sentOf (ServeDNS e env w r ms) = Some m' ->
  exists m rcode,
    responds e r m rcode
    /\ Permutation (dns.Answer m) (dns.Answer m')
    /\ m' = dns.withAnswer m (dns.Answer m')
    /\ dns.Id m' = dns.Id m /\ dns.Rcode m' = dns.Rcode m
    /\ dns.Question_ m' = dns.Question_ m
    /\ dns.Ns m' = dns.Ns m /\ dns.Extra m' = dns.Extra m.
Proof.
  intros Hsent.
  destruct (ServeDNS_response_or_not e env w r ms)
    as [(rc & err & Hno)|(m & rcode & Hnext)].
  { rewrite Hno in Hsent. discriminate. }
  exists m, rcode. split; [assumption|].
  assert (H : Permutation (dns.Answer m) (dns.Answer m')
              /\ m' = dns.withAnswer m (dns.Answer m')).
  { destruct (Z.eq_dec (dns.Rcode m) dns.RcodeSuccess) as [Hrc|Hrc].
    2:{ rewrite (ServeDNS_failure_rcode _ _ _ _ _ _ _ Hnext Hrc),
          sentOf_writeFinalResponse in Hsent.
        injection Hsent as <-. now rewrite withAnswer_same. }
    destruct (le_lt_dec (length (dns.Answer m)) 1) as [Hlen|Hlen].
    { rewrite (ServeDNS_short _ _ _ _ _ _ _ Hnext Hlen),
        sentOf_writeFinalResponse in Hsent.
      injection Hsent as <-. now rewrite withAnswer_same. }
    assert (Hlen2 : (2 <= length (dns.Answer m))%nat) by lia.
    rewrite (ServeDNS_long _ _ _ _ _ _ _ Hnext Hrc Hlen2) in Hsent.
    destruct (classify e (dns.Answer m) [] []) as [[p o]|] eqn:Hc;
      [|discriminate].
    assert (Hperm : Permutation (dns.Answer m) (p ++ o)).
    { apply (reorder_Permutation e). unfold reorder. now rewrite Hc. }
    simpl in Hsent. destruct p as [|rr p]; simpl in Hsent.
    - rewrite sentOf_writeFinalResponse in Hsent. injection Hsent as <-.
      now rewrite withAnswer_same.
    - destruct (dns.Question_ m); [discriminate|].
      rewrite sentOf_writeFinalResponse in Hsent. injection Hsent as <-.
      split; [exact Hperm|reflexivity]. }
  destruct H as [Hperm Heq]. split; [assumption|]. split; [assumption|].
  rewrite Heq. simpl. now repeat split.
Qed.

Lemma ServeDNS_sends_permutation_witness :
  let m := fixtures.reply fixtures.req fixtures.answers3 in
  let m' := fixtures.reply fixtures.req
              [fixtures.A "example.org." 10 0 0 1;
               fixtures.A "example.org." 10 0 0 2;
               fixtures.A "example.org." 192 168 1 1] in
  exists m0 rcode,
    responds (fixtures.plugin "euc1-az2" ["10.0.0.0/24"] m) fixtures.req
      m0 rcode
    /\ Permutation (dns.Answer m0) (dns.Answer m')
    /\ m' = dns.withAnswer m0 (dns.Answer m')
    /\ dns.Id m' = dns.Id m0 /\ dns.Rcode m' = dns.Rcode m0
    /\ dns.Question_ m' = dns.Question_ m0
    /\ dns.Ns m' = dns.Ns m0 /\ dns.Extra m' = dns.Extra m0.
Proof.
  intros m m'.
  apply (ServeDNS_sends_permutation
           (fixtures.plugin "euc1-az2" ["10.0.0.0/24"] m)
           fixtures.env fixtures.w fixtures.req noMetrics m').
  reflexivity.
Defined.

Lemma filter_nonempty_Exists e cidrs answers :
  currentCIDRs e = Some cidrs ->
  List.filter (isPreferred cidrs) answers <> [] ->
  Exists (classifiedPreferred e) answers.
Proof.
  intros Hz Hne.
  destruct (List.filter (isPreferred cidrs) answers) as [|rr p] eqn:Hp;
    [contradiction|].
  assert (Hin : In rr (List.filter (isPreferred cidrs) answers))
    by (rewrite Hp; now left).
  apply filter_In in Hin. destruct Hin as [Hin Hrr].
  apply List.Exists_exists. exists rr. split; [assumption|].
  now apply (classifiedPreferred_isPreferred e cidrs rr Hz).
Qed.

Lemma filter_length_bound {X} (f : X -> bool) (l : list X) :
  (length (List.filter f l) <= length l)%nat.
Proof.
  induction l as [|x l IH]; simpl; [lia|]. destruct (f x); simpl; lia.
Qed.

(** The three states in which a call can leave the instruments. *)
Lemma metricsOf_ServeDNS_cases e env w r ms :
  let s := server env in
  let ms1 := observeLatency ms s (reorderElapsed env) in
  metricsOf (ServeDNS e env w r ms) = ms
  \/ metricsOf (ServeDNS e env w r ms) = ms1
  \/ (exists m rcode,
        responds e r m rcode
        /\ dns.Rcode m = dns.RcodeSuccess
        /\ (1 <= preferredCount e (dns.Answer m) <= length (dns.Answer m))%nat
        /\ metricsOf (ServeDNS e env w r ms)
           = addReorderCount (incReorderedQueries ms1 s) s
               (Z.of_nat (preferredCount e (dns.Answer m)))).
Proof.
  simpl.
  destruct (ServeDNS_response_or_not e env w r ms)
    as [(rc & err & ->)|(m & rcode & Hnext)]; [now left|].
  destruct (Z.eq_dec (dns.Rcode m) dns.RcodeSuccess) as [Hrc|Hrc].
  2:{ left. rewrite (ServeDNS_failure_rcode _ _ _ _ _ _ _ Hnext Hrc).
      apply metricsOf_writeFinalResponse. }
  destruct (le_lt_dec (length (dns.Answer m)) 1) as [Hlen|Hlen].
  { left. rewrite (ServeDNS_short _ _ _ _ _ _ _ Hnext Hlen).
    apply metricsOf_writeFinalResponse. }
  assert (Hlen2 : (2 <= length (dns.Answer m))%nat) by lia.
  destruct (currentCIDRs e) as [cidrs|] eqn:Hz.
  - destruct (List.filter (isPreferred cidrs) (dns.Answer m)) as [|rr p] eqn:Hp.
    + right. left. rewrite (ServeDNS_long _ _ _ _ _ _ _ Hnext Hrc Hlen2).
      rewrite (classify_present e cidrs Hz), Hp. simpl.
      apply metricsOf_writeFinalResponse.
    + right. right. exists m, rcode.
      assert (Hne : List.filter (isPreferred cidrs) (dns.Answer m) <> [])
        by (rewrite Hp; discriminate).
      rewrite (preferredCount_present _ _ _ Hz).
      repeat split; try assumption.
      * rewrite Hp. simpl. lia.
      * apply filter_length_bound.
      * rewrite (ServeDNS_preferred _ env w _ ms _ _ _ Hnext Hrc Hlen2 Hz Hne).
        destruct (dns.Question_ m); [reflexivity|].
        apply metricsOf_writeFinalResponse.
  - rewrite (ServeDNS_long _ _ _ _ _ _ _ Hnext Hrc Hlen2).
    destruct (classify e (dns.Answer m) [] []) as [[p o]|] eqn:Hc;
      [|now left].
    destruct (classify_missing_Some e _ p o Hz Hc) as (-> & _ & _).
    right. left. simpl. apply metricsOf_writeFinalResponse.
Qed.

(** X5. The effect of one call on the instruments, for every plugin value,
    request, handler and writer: under the label of the serving instance
    the requests counter grows by 0 or 1, the records counter grows by 0
    exactly when the requests counter does not move and otherwise by the
    number of preferred records (at least 1, at most the number of
    answers), and the histogram gains no observation or one, always one
    when the counters move; under every other label nothing changes.  No
    call ever decreases a counter or removes an observation. *)
Theorem ServeDNS_instrument_effects e env w r ms :
  let s := server env in
  let ms' := metricsOf (ServeDNS e env w r ms) in
  exists (queries records observed : nat),
    counterValue (reorderedQueriesCount ms') s
    = counterValue (reorderedQueriesCount ms) s + Z.of_nat queries
    /\ counterValue (reorderCount ms') s
       = counterValue (reorderCount ms) s + Z.of_nat records
    /\ observations (reorderLatency ms') s
       = observations (reorderLatency ms) s
         ++ repeat (reorderElapsed env) observed
    /\ (queries <= observed <= 1)%nat
    /\ (queries = 0%nat -> records = 0%nat)
    /\ (queries = 1%nat ->
        exists m rcode,
          responds e r m rcode
          /\ records = preferredCount e (dns.Answer m)
          /\ (1 <= records <= length (dns.Answer m))%nat)
    /\ (forall s', s <> s' ->
          counterValue (reorderedQueriesCount ms') s'
          = counterValue (reorderedQueriesCount ms) s'
          /\ counterValue (reorderCount ms') s'
             = counterValue (reorderCount ms) s'
          /\ observations (reorderLatency ms') s'
             = observations (reorderLatency ms) s').
Proof.
  simpl.
  destruct (metricsOf_ServeDNS_cases e env w r ms)
    as [->|[->|(m & rcode & Hnext & Hrc & Hn & ->)]].
  - exists 0%nat, 0%nat, 0%nat. simpl. rewrite !Z.add_0_r, app_nil_r.
    repeat split; auto; try lia; try discriminate.
  - exists 0%nat, 0%nat, 1%nat. simpl. rewrite !Z.add_0_r.
    repeat split; auto; try lia; try discriminate;
      try apply observations_observe;
      try (now apply observations_observe_ne).
  - exists 1%nat, (preferredCount e (dns.Answer m)), 1%nat. simpl.
    repeat split; try lia;
      try apply counterValue_add;
      try apply observations_observe;
      try (now apply counterValue_add_ne);
      try (now apply observations_observe_ne).
    intros _. exists m, rcode. repeat split; auto; lia.
Qed.



Lemma ServeDNS_instrument_effects_witness :
  let m := fixtures.reply fixtures.req fixtures.answers3 in
  let e := fixtures.plugin "euc1-az2" ["10.0.0.0/24"] m in
  let ms' := metricsOf (ServeDNS e fixtures.env fixtures.w fixtures.req
                          noMetrics) in
  exists (queries records observed : nat),
    counterValue (reorderedQueriesCount ms') "" = 0 + Z.of_nat queries
    /\ counterValue (reorderCount ms') "" = 0 + Z.of_nat records
    /\ observations (reorderLatency ms') "" = [] ++ repeat 1500 observed
    /\ (queries <= observed <= 1)%nat
    /\ (queries = 0%nat -> records = 0%nat)
    /\ (queries = 1%nat ->
        exists m0 rcode,
          responds e fixtures.req m0 rcode
          /\ records = preferredCount e (dns.Answer m0)
          /\ (1 <= records <= length (dns.Answer m0))%nat)
    /\ (forall s', "" <> s' ->
          counterValue (reorderedQueriesCount ms') s' = 0
          /\ counterValue (reorderCount ms') s' = 0
          /\ observations (reorderLatency ms') s' = []).
Proof.
  intros m e ms'.
  exact (ServeDNS_instrument_effects e fixtures.env fixtures.w fixtures.req
           noMetrics).
Defined.

(** ** Responses that are already in order *)

Lemma filter_all_true {X} (f : X -> bool) (l : list X) :
  Forall (fun x => f x = true) l ->
  List.filter f l = l /\ List.filter (fun x => negb (f x)) l = [].
Proof.
  induction 1 as [|x l Hx _ [IH1 IH2]]; simpl; [now split|].
  rewrite Hx. simpl. now rewrite IH1.
Qed.

Lemma filter_all_false {X} (f : X -> bool) (l : list X) :
  Forall (fun x => f x = false) l ->
  List.filter f l = [] /\ List.filter (fun x => negb (f x)) l = l.
Proof.
  induction 1 as [|x l Hx _ [IH1 IH2]]; simpl; [now split|].
  rewrite Hx. simpl. now rewrite IH2.
Qed.

Lemma filter_app_sorted {X} (f : X -> bool) (pre post : list X) :
  Forall (fun x => f x = true) pre ->
  Forall (fun x => f x = false) post ->
  List.filter f (pre ++ post) = pre
  /\ List.filter (fun x => negb (f x)) (pre ++ post) = post.
Proof.
  intros Hpre Hpost. rewrite !List.filter_app.
  destruct (filter_all_true f pre Hpre) as [-> ->].
  destruct (filter_all_false f post Hpost) as [-> ->].
  now rewrite app_nil_r.
Qed.

(** X7. The counters count responses that have a preferred record, not
    responses whose order changes: when the preferred records of a response
    already come first (in particular when every record is preferred) the
    client receives the very message that was received, and still the
    requests counter goes up by 1 and the records counter by the number of
    preferred records. *)
Theorem ServeDNS_counts_ordered_response e env w r ms m rcode cidrs pre post :
  responds e r m rcode ->
  dns.Rcode m = dns.RcodeSuccess ->
  (2 <= length (dns.Answer m))%nat ->
  dns.Question_ m <> [] ->
  currentCIDRs e = Some cidrs ->
  dns.Answer m = pre ++ post ->
  pre <> [] ->
  Forall (fun rr => isPreferred cidrs rr = true) pre ->
  Forall (fun rr => isPreferred cidrs rr = false) post ->
  exists rcode' ms',
    ServeDNS e env w r ms = Returned rcode' (WriteMsg w m) (Some m) ms'
    /\ counterValue (reorderedQueriesCount ms') (server env)
       = counterValue (reorderedQueriesCount ms) (server env) + 1
    /\ counterValue (reorderCount ms') (server env)
       = counterValue (reorderCount ms) (server env) + Z.of_nat (length pre).
Proof.
  intros Hnext Hrc Hlen Hq Hz Hans Hpre Hp Ho.
  destruct (filter_app_sorted (isPreferred cidrs) pre post Hp Ho) as [Hfp Hfo].
  assert (Hne : List.filter (isPreferred cidrs) (dns.Answer m) <> [])
    by (rewrite Hans, Hfp; assumption).
  rewrite (ServeDNS_preferred _ env w _ ms _ _ _ Hnext Hrc Hlen Hz Hne).
  destruct (dns.Question_ m); [contradiction|].
  unfold isOther. rewrite Hans, Hfp, Hfo, <- Hans, withAnswer_same.
  match goal with |- context [writeFinalResponse w m ?y] =>
    destruct (writeFinalResponse_returns w m y) as (rcode' & -> & _);
    exists rcode', y end.
  split; [reflexivity|]. simpl. split; apply counterValue_add.
Qed.

Lemma ServeDNS_counts_ordered_response_witness :
  let m := fixtures.reply fixtures.req
             [fixtures.A "example.org." 10 0 0 1;
              fixtures.A "example.org." 10 0 0 2] in
  let e := fixtures.plugin "euc1-az2" ["10.0.0.0/24"] m in
  exists rcode' ms',
    ServeDNS e fixtures.env fixtures.w fixtures.req noMetrics
    = Returned rcode' None (Some m) ms'
    /\ counterValue (reorderedQueriesCount ms') "" = 0 + 1
    /\ counterValue (reorderCount ms') "" = 0 + Z.of_nat 2.
Proof.
  intros m e.
  apply (ServeDNS_counts_ordered_response e fixtures.env fixtures.w
           fixtures.req noMetrics m dns.RcodeSuccess
           [cidr4 10 0 0 0 24]
           [fixtures.A "example.org." 10 0 0 1;
            fixtures.A "example.org." 10 0 0 2] []).
  - reflexivity.
  - reflexivity.
  - simpl. lia.
  - discriminate.
  - reflexivity.
  - reflexivity.
  - discriminate.
  - repeat constructor.
  - constructor.
Defined.

(** ** Only the current zone's table is read *)

Lemma classify_currentCIDRs e e' :
  currentCIDRs e = currentCIDRs e' ->
  forall answers preferred other,
    classify e answers preferred other = classify e' answers preferred other.
Proof.
  intros Hz. unfold currentCIDRs in Hz.
  induction answers as [|rr rest IH]; intros p o; simpl; [reflexivity|].
  destruct (extractRRIP rr); [|apply IH].
  destruct (Zones e !! currentAvailabilityZoneId e) as [z|],
           (Zones e' !! currentAvailabilityZoneId e') as [z'|];
    simpl in Hz; try discriminate; [|reflexivity].
  injection Hz as ->. destruct (ipMatchesCIDRs _ _); apply IH.
Qed.

(** X8. [ServeDNS] depends on the plugin value through its next handler and
    the table of its current zone only: the other zones of the map, the
    name of the current zone and the synced flag play no part, so a
    registry that holds the current zone alone serves every request exactly
    as one that holds every zone. *)
Theorem ServeDNS_only_current_zone e e' env w r ms :
  Next e = Next e' ->
  currentCIDRs e = currentCIDRs e' ->
  ServeDNS e env w r ms = ServeDNS e' env w r ms.
Proof.
  intros Hn Hz. unfold ServeDNS. rewrite Hn.
  destruct (NextOrFailure Name (Next e') NewResponsePrinter r)
    as [[pw rcode] err].
  destruct err; [reflexivity|].
  destruct (msg pw) as [m|]; [|reflexivity].
  destruct (negb (dns.Rcode m =? dns.RcodeSuccess)); [reflexivity|].
  destruct (Nat.leb (length (dns.Answer m)) 1); [reflexivity|].
  now rewrite (classify_currentCIDRs e e' Hz).
Qed.

Lemma ServeDNS_only_current_zone_witness :
  let m := fixtures.reply fixtures.req fixtures.answers3 in
  let one := fixtures.plugin "euc1-az2" ["10.0.0.0/24"] m in
  let two :=
    {| Next := Some (mockHandler m);
       Zones := <["euc1-az3" := {| CIDRs := [cidr4 192 168 1 0 24] |}]>
                  (Zones one);
       currentAvailabilityZoneId := "euc1-az2";
       HasSynced := true |} in
  ServeDNS two fixtures.env fixtures.w fixtures.req noMetrics
  = ServeDNS one fixtures.env fixtures.w fixtures.req noMetrics.
Proof.
  intros m one two.
  apply (ServeDNS_only_current_zone two one); reflexivity.
Defined.

(** ** When a call panics *)

(** X9. [ServeDNS] panics in two situations only, both on a successful
    response with two or more answers: the map has no entry for the current
    zone and an answer carries an address (nil dereference, before any
    instrument is touched), or the response has a preferred record and no
    question section (index out of range).  Hence a plugin whose current
    zone is in the map returns from every request whose response carries
    its question section. *)
Theorem ServeDNS_panics_only_when e env w r ms :
  (forall p ms',
     ServeDNS e env w r ms = Panicked p ms' ->
     exists m rcode,
       responds e r m rcode
       /\ dns.Rcode m = dns.RcodeSuccess
       /\ (2 <= length (dns.Answer m))%nat
       /\ ((p = NilPointerDereference
            /\ Zones e !! currentAvailabilityZoneId e = None
            /\ Exists (fun rr => extractRRIP rr <> None) (dns.Answer m)
            /\ ms' = ms)
           \/ (p = IndexOutOfRange
               /\ dns.Question_ m = []
               /\ Exists (classifiedPreferred e) (dns.Answer m))))
  /\ (is_Some (Zones e !! currentAvailabilityZoneId e) ->
      (forall m rcode, responds e r m rcode -> dns.Question_ m <> []) ->
      exists rcode err sent ms',
        ServeDNS e env w r ms = Returned rcode err sent ms').
Proof.
  assert (Hpanic : forall p ms',
            ServeDNS e env w r ms = Panicked p ms' ->
            exists m rcode,
              responds e r m rcode
              /\ dns.Rcode m = dns.RcodeSuccess
              /\ (2 <= length (dns.Answer m))%nat
              /\ ((p = NilPointerDereference
                   /\ Zones e !! currentAvailabilityZoneId e = None
                   /\ Exists (fun rr => extractRRIP rr <> None) (dns.Answer m)
                   /\ ms' = ms)
                  \/ (p = IndexOutOfRange
                      /\ dns.Question_ m = []
                      /\ Exists (classifiedPreferred e) (dns.Answer m)))).
  { intros p ms' Hp.
    destruct (ServeDNS_response_or_not e env w r ms)
      as [(rc & err & Hno)|(m & rcode & Hnext)]; [congruence|].
    exists m, rcode. split; [assumption|].
    destruct (Z.eq_dec (dns.Rcode m) dns.RcodeSuccess) as [Hrc|Hrc].
    2:{ rewrite (ServeDNS_failure_rcode _ _ _ _ _ _ _ Hnext Hrc) in Hp.
        destruct (writeFinalResponse_returns w m ms) as (? & Hw & _).
        congruence. }
    destruct (le_lt_dec (length (dns.Answer m)) 1) as [Hlen|Hlen].
    { rewrite (ServeDNS_short _ _ _ _ _ _ _ Hnext Hlen) in Hp.
      destruct (writeFinalResponse_returns w m ms) as (? & Hw & _).
      congruence. }
    assert (Hlen2 : (2 <= length (dns.Answer m))%nat) by lia.
    split; [assumption|]. split; [assumption|].
    destruct (currentCIDRs e) as [cidrs|] eqn:Hz.
    - right.
      destruct (List.filter (isPreferred cidrs) (dns.Answer m)) as [|rr l]
        eqn:Hf.
      + rewrite (ServeDNS_long _ _ _ _ _ _ _ Hnext Hrc Hlen2) in Hp.
        rewrite (classify_present e cidrs Hz), Hf in Hp. simpl in Hp.
        match type of Hp with writeFinalResponse ?a ?b ?c = _ =>
          destruct (writeFinalResponse_returns a b c) as (? & Hw & _) end.
        congruence.
      + assert (Hne : List.filter (isPreferred cidrs) (dns.Answer m) <> [])
          by (rewrite Hf; discriminate).
        rewrite (ServeDNS_preferred _ env w _ ms _ _ _ Hnext Hrc Hlen2 Hz Hne)
          in Hp.
        destruct (dns.Question_ m) as [|q qs].
        * injection Hp as <- _. repeat split.
          now apply (filter_nonempty_Exists e cidrs).
        * match type of Hp with writeFinalResponse ?a ?b ?c = _ =>
            destruct (writeFinalResponse_returns a b c) as (? & Hw & _) end.
          congruence.
    - left.
      rewrite (ServeDNS_long _ _ _ _ _ _ _ Hnext Hrc Hlen2) in Hp.
      destruct (classify e (dns.Answer m) [] []) as [[p0 o]|] eqn:Hc.
      + destruct (classify_missing_Some e _ p0 o Hz Hc) as (-> & _ & _).
        simpl in Hp.
        match type of Hp with writeFinalResponse ?a ?b ?c = _ =>
          destruct (writeFinalResponse_returns a b c) as (? & Hw & _) end.
        congruence.
      + injection Hp as <- <-. repeat split.
        * now apply currentCIDRs_None.
        * assert (Hdec : forall rr : dns.RR,
                     {extractRRIP rr <> None} + {~ extractRRIP rr <> None})
            by (intros rr; destruct (extractRRIP rr); [left|right];
                congruence).
          destruct (List.Exists_dec (fun rr => extractRRIP rr <> None)
                      (dns.Answer m) Hdec) as [Hex|Hno]; [assumption|].
          assert (Hall : Forall (fun rr => extractRRIP rr = None)
                           (dns.Answer m)).
          { apply List.Forall_forall. intros rr Hin.
            destruct (extractRRIP rr) eqn:E; [|reflexivity].
            exfalso. apply Hno. apply List.Exists_exists. exists rr.
            split; [assumption|congruence]. }
          rewrite (classify_no_address e _ [] [] Hall) in Hc. discriminate. }
  split; [exact Hpanic|].
  intros [zone Hzone] Hq.
  destruct (ServeDNS e env w r ms) as [rcode err sent ms'|p ms'] eqn:E;
    [eauto|].
  destruct (Hpanic p ms' eq_refl)
    as (m & rcode & Hnext & _ & _ & [(_ & Hz & _)|(_ & Hq0 & _)]).
  - congruence.
  - now apply Hq in Hnext.
Qed.

Lemma ServeDNS_panics_only_when_witness :
  let m := fixtures.reply fixtures.req fixtures.answers3 in
  let e := fixtures.plugin "euc1-az2" ["10.0.0.0/24"] m in
  exists rcode err sent ms',
    ServeDNS e fixtures.env fixtures.w fixtures.req noMetrics
    = Returned rcode err sent ms'.
Proof.
  intros m e.
  destruct (ServeDNS_panics_only_when e fixtures.env fixtures.w fixtures.req
              noMetrics) as [_ Hret].
  apply Hret.
  - eexists. reflexivity.
  - intros m0 rcode Hresp. injection Hresp as <- _. discriminate.
Defined.

Lemma ServeDNS_stable_partition_witness :
  let m := fixtures.reply fixtures.req fixtures.answers3 in
  let e := fixtures.plugin "euc1-az2" ["10.0.0.0/24"] m in
  exists cidrs rcode' err m' ms',
    currentCIDRs e = Some cidrs
    /\ ServeDNS e fixtures.env fixtures.w fixtures.req noMetrics
       = Returned rcode' err (Some m') ms'
    /\ stablePartition (isPreferred cidrs) (dns.Answer m) (dns.Answer m')
    /\ m' = dns.withAnswer m (dns.Answer m').
Proof.
  intros m e.
  apply (ServeDNS_stable_partition e fixtures.env fixtures.w fixtures.req
           noMetrics m dns.RcodeSuccess).
  - reflexivity.
  - reflexivity.
  - simpl. lia.
  - apply Exists_cons_hd. eexists _, _. repeat split; reflexivity.
  - discriminate.
Defined.

Lemma ServeDNS_twice_witness :
  let m := fixtures.reply fixtures.req fixtures.answers3 in
  let m1 := fixtures.reply fixtures.req
              [fixtures.A "example.org." 10 0 0 1;
               fixtures.A "example.org." 10 0 0 2;
               fixtures.A "example.org." 192 168 1 1] in
  sentOf (ServeDNS (fixtures.plugin "euc1-az2" ["10.0.0.0/24"] m1)
            fixtures.env fixtures.w fixtures.req noMetrics)
  = Some m1.
Proof.
  intros m m1.
  refine (ServeDNS_twice (fixtures.plugin "euc1-az2" ["10.0.0.0/24"] m)
            fixtures.env fixtures.w fixtures.req noMetrics m dns.RcodeSuccess
            m1 _ _
            (fixtures.plugin "euc1-az2" ["10.0.0.0/24"] m1)
            fixtures.env fixtures.w fixtures.req noMetrics dns.RcodeSuccess
            _ _ _);
    reflexivity.
Defined.

(** ** The table as a set of ranges *)

(** X12. The membership test depends on the table as a set: it is monotone
    (a table that holds every range of another matches every address the
    other matches), so neither the order of the ranges nor a range listed
    twice changes the answer, and the table of discovered ranges followed
    by static ones matches exactly the addresses that either part
    matches. *)
Theorem ipMatchesCIDRs_set (ip : net.IP) (cidrs cidrs' : list net.IPNet) :
  ((forall cidr, In cidr cidrs -> In cidr cidrs') ->
   ipMatchesCIDRs ip cidrs = true -> ipMatchesCIDRs ip cidrs' = true)
  /\ ((forall cidr, In cidr cidrs <-> In cidr cidrs') ->
      ipMatchesCIDRs ip cidrs = ipMatchesCIDRs ip cidrs')
  /\ (Permutation cidrs cidrs' ->
      ipMatchesCIDRs ip cidrs = ipMatchesCIDRs ip cidrs')
  /\ ipMatchesCIDRs ip (cidrs ++ cidrs')
     = ipMatchesCIDRs ip cidrs || ipMatchesCIDRs ip cidrs'.
Proof.
  assert (Hmono : forall a b : list net.IPNet,
             (forall cidr, In cidr a -> In cidr b) ->
             ipMatchesCIDRs ip a = true -> ipMatchesCIDRs ip b = true).
  { intros a b Hincl. rewrite !ipMatchesCIDRs_existsb, !existsb_exists.
    intros (c & Hin & Hc). exists c. auto. }
  assert (Hset : forall a b : list net.IPNet,
             (forall cidr, In cidr a <-> In cidr b) ->
             ipMatchesCIDRs ip a = ipMatchesCIDRs ip b).
  { intros a b Hiff.
    destruct (ipMatchesCIDRs ip a) eqn:Ha, (ipMatchesCIDRs ip b) eqn:Hb;
      try reflexivity.
    - rewrite (Hmono a b) in Hb; [discriminate| |assumption].
      intros c. apply Hiff.
    - rewrite (Hmono b a) in Ha; [discriminate| |assumption].
      intros c. apply Hiff. }
  repeat split.
  - apply Hmono.
  - apply Hset.
  - intros Hperm. apply Hset. intros c. split; intros Hin.
    + now apply (Permutation_in _ Hperm).
    + now apply (Permutation_in _ (Permutation_sym Hperm)).
  - apply ipMatchesCIDRs_app.
Qed.

Lemma ipMatchesCIDRs_set_witness :
  let ip := net.IPv4 10 0 0 1 in
  let a := cidr4 192 168 1 0 24 in
  let b := cidr4 10 0 0 0 24 in
  ipMatchesCIDRs ip [a; b] = ipMatchesCIDRs ip [b; a; b].
Proof.
  intros ip a b.
  destruct (ipMatchesCIDRs_set ip [a; b] [b; a; b]) as (_ & Hset & _).
  apply Hset. intros c. simpl. tauto.
Defined.

(** * Further properties of setup *)

Section SetupRegistry.

Variable ParseCIDR : string -> option net.IPNet.

Lemma addSubnetCIDR_unusable l block :
  usableBlock ParseCIDR block = None ->
  addSubnetCIDR ParseCIDR l block = l.
Proof.
  unfold usableBlock, addSubnetCIDR. destruct block as [cidrStr|]; [|reflexivity].
  destruct (String.eqb cidrStr ""); [reflexivity|]. now intros ->.
Qed.

Lemma addSubnetCIDR_registry l block :
  let id := currentAvailabilityZoneId l in
  let l' := addSubnetCIDR ParseCIDR l block in
  table l' id
  = table l id ++ match usableBlock ParseCIDR block with
                  | Some cidr => [cidr]
                  | None => []
                  end
  /\ (forall z, z <> id -> Zones l' !! z = Zones l !! z)
  /\ currentAvailabilityZoneId l' = id.
Proof.
  simpl. destruct (usableBlock ParseCIDR block) as [cidr|] eqn:Hb.
  - unfold usableBlock in Hb. unfold addSubnetCIDR.
    destruct block as [cidrStr|]; [|discriminate].
    destruct (String.eqb cidrStr ""); [discriminate|]. rewrite Hb.
    repeat split.
    + apply appendCIDR_table.
    + intros z Hz. now apply appendCIDR_other.
  - rewrite (addSubnetCIDR_unusable l block Hb), app_nil_r. auto.
Qed.

Lemma fold_addSubnetCIDR_registry blocks :
  forall l,
    let id := currentAvailabilityZoneId l in
    let l' := fold_left (addSubnetCIDR ParseCIDR) blocks l in
    table l' id = table l id ++ omap (usableBlock ParseCIDR) blocks
    /\ (forall z, z <> id -> Zones l' !! z = Zones l !! z)
    /\ currentAvailabilityZoneId l' = id.
Proof.
  induction blocks as [|b rest IH]; intros l; simpl.
  - now rewrite app_nil_r.
  - destruct (addSubnetCIDR_registry l b) as (Ht & Ho & Hid).
    destruct (IH (addSubnetCIDR ParseCIDR l b)) as (Ht' & Ho' & Hid').
    simpl in *. rewrite Hid in *. rewrite Ht', Ht, Hid', <- app_assoc.
    repeat split.
    + now destruct (usableBlock ParseCIDR b).
    + intros z Hz. rewrite (Ho' z Hz). now apply Ho.
Qed.

Lemma addSubnet_blocks l subnet :
  addSubnet ParseCIDR l subnet
  = fold_left (addSubnetCIDR ParseCIDR) (subnetBlocks subnet) l.
Proof. reflexivity. Qed.

Lemma fold_addSubnet_registry subnets :
  forall l,
    let id := currentAvailabilityZoneId l in
    let l' := fold_left (addSubnet ParseCIDR) subnets l in
    table l' id = table l id ++ discoveredRanges ParseCIDR subnets
    /\ (forall z, z <> id -> Zones l' !! z = Zones l !! z)
    /\ currentAvailabilityZoneId l' = id.
Proof.
  unfold discoveredRanges.
  induction subnets as [|sn rest IH]; intros l; cbn [fold_left flat_map].
  - simpl. now rewrite app_nil_r.
  - rewrite addSubnet_blocks.
    pose proof (fold_addSubnetCIDR_registry (subnetBlocks sn) l) as H.
    cbv zeta in H. destruct H as (Ht & Ho & Hid).
    pose proof (IH (fold_left (addSubnetCIDR ParseCIDR) (subnetBlocks sn) l))
      as H'.
    cbv zeta in H'. rewrite Hid in H'. destruct H' as (Ht' & Ho' & Hid').
    rewrite Ht', Ht, Hid', omap_app, app_assoc.
    repeat split.
    intros z Hz. rewrite (Ho' z Hz). now apply Ho.
Qed.

Lemma processStatement_skip l args :
  namesZone (currentAvailabilityZoneId l) args = false ->
  processStatement ParseCIDR l args = l.
Proof.
  unfold namesZone, processStatement.
  destruct args as [|zoneName [|cidrStr cidrArgs]]; try reflexivity.
  intros Hne. simpl. now rewrite Hne.
Qed.

Lemma processStatement_registry l args :
  let id := currentAvailabilityZoneId l in
  let l' := processStatement ParseCIDR l args in
  table l' id = table l id ++ statementRanges ParseCIDR id args
  /\ (forall z, z <> id -> Zones l' !! z = Zones l !! z)
  /\ currentAvailabilityZoneId l' = id.
Proof.
  simpl.
  destruct (namesZone (currentAvailabilityZoneId l) args) eqn:Hn.
  - unfold namesZone in Hn.
    destruct args as [|zoneName [|cidrStr cidrArgs]]; try discriminate.
    apply String.eqb_eq in Hn. subst zoneName.
    unfold statementRanges. rewrite String.eqb_refl.
    destruct (regexp.MatchString awsZoneIDPattern
                (currentAvailabilityZoneId l)) eqn:Hm.
    + assert (Hl : processStatement ParseCIDR l
                     (currentAvailabilityZoneId l :: cidrStr :: cidrArgs)
                   = fold_left
                       (addStaticCIDR ParseCIDR (currentAvailabilityZoneId l))
                       (cidrStr :: cidrArgs) l).
      { unfold processStatement.
        replace (Nat.leb 2 (length (currentAvailabilityZoneId l
                                    :: cidrStr :: cidrArgs))) with true
          by reflexivity.
        now rewrite String.eqb_refl, Hm. }
      rewrite Hl.
      apply (fold_addStaticCIDR ParseCIDR (currentAvailabilityZoneId l)
               (cidrStr :: cidrArgs) l).
    + assert (Hl : processStatement ParseCIDR l
                     (currentAvailabilityZoneId l :: cidrStr :: cidrArgs) = l).
      { unfold processStatement.
        replace (Nat.leb 2 (length (currentAvailabilityZoneId l
                                    :: cidrStr :: cidrArgs))) with true
          by reflexivity.
        now rewrite String.eqb_refl, Hm. }
      rewrite Hl. simpl. rewrite app_nil_r. auto.
  - rewrite (processStatement_skip l args Hn).
    assert (Hs : statementRanges ParseCIDR (currentAvailabilityZoneId l) args
                 = []).
    { unfold statementRanges, namesZone in *.
      destruct args as [|zoneName [|cidrStr cidrArgs]]; try reflexivity.
      now rewrite Hn. }
    rewrite Hs, app_nil_r. auto.
Qed.

Lemma fold_processStatement_registry corefile :
  forall l,
    let id := currentAvailabilityZoneId l in
    let l' := fold_left (processStatement ParseCIDR) corefile l in
    table l' id = table l id ++ staticRanges ParseCIDR id corefile
    /\ (forall z, z <> id -> Zones l' !! z = Zones l !! z)
    /\ currentAvailabilityZoneId l' = id.
Proof.
  unfold staticRanges.
  induction corefile as [|args rest IH]; intros l; cbn [fold_left flat_map].
  - simpl. now rewrite app_nil_r.
  - pose proof (processStatement_registry l args) as H.
    cbv zeta in H. destruct H as (Ht & Ho & Hid).
    pose proof (IH (processStatement ParseCIDR l args)) as H'.
    cbv zeta in H'. rewrite Hid in H'. destruct H' as (Ht' & Ho' & Hid').
    rewrite Ht', Ht, Hid', app_assoc.
    repeat split.
    intros z Hz. rewrite (Ho' z Hz). now apply Ho.
Qed.

Lemma staticRanges_unset corefile : staticRanges ParseCIDR "" corefile = [].
Proof.
  unfold staticRanges. induction corefile as [|args rest IH]; simpl;
    [reflexivity|].
  rewrite IH, app_nil_r. unfold statementRanges.
  destruct args as [|zoneName [|cidrStr cidrArgs]]; try reflexivity.
  destruct (String.eqb zoneName "") eqn:Hz; [|reflexivity].
  apply String.eqb_eq in Hz. now subst zoneName.
Qed.

Lemma envOverride_Zones Getenv l :
  Zones (envOverride Getenv l) = Zones l.
Proof.
  unfold envOverride.
  destruct (String.eqb (currentAvailabilityZoneId l) ""); [|reflexivity].
  now destruct (regexp.MatchString awsZoneIDPattern (Getenv "AWS_ZONE_ID")).
Qed.

(** The registry after the discovery step. *)
Lemma discover_registry imds ec2 :
  let l := discover ParseCIDR imds ec2 l_init in
  table l (currentAvailabilityZoneId l) = inventoryRanges ParseCIDR imds ec2
  /\ (forall z, z <> currentAvailabilityZoneId l -> Zones l !! z = None)
  /\ (discoveryYields (imds tt) = false -> l = l_init).
Proof.
  simpl. unfold discover, inventoryRanges, discoveryYields.
  destruct (imds tt) as [[az region] err]. simpl.
  destruct err as [err|]; [now repeat split|].
  destruct (negb (String.eqb az "") && negb (String.eqb region ""));
    [|now repeat split].
  destruct (ec2 context.Background az region) as [subnets [err|]].
  - now repeat split.
  - pose proof (fold_addSubnet_registry subnets (setZoneId l_init az)) as H.
    cbv zeta in H. simpl in H. destruct H as (Ht & Ho & Hid).
    rewrite Hid. repeat split; try assumption; try discriminate.
Qed.

(** The registry with which [setup] ends. *)
Lemma setup_registry imds ec2 Getenv corefile :
  let res := setup ParseCIDR imds ec2 Getenv corefile in
  let id := currentAvailabilityZoneId (l_final res) in
  table (l_final res) id
  = inventoryRanges ParseCIDR imds ec2 ++ staticRanges ParseCIDR id corefile
  /\ (forall z, z <> id -> Zones (l_final res) !! z = None).
Proof.
  simpl.
  pose proof (discover_registry imds ec2) as H. cbv zeta in H.
  destruct H as (Ht & Ho & Hinit).
  pose proof (discover_id ParseCIDR imds ec2) as Hid1.
  pose proof (envOverride_discover_id ParseCIDR imds ec2 Getenv) as Hid2.
  pose proof (envOverride_Zones Getenv (discover ParseCIDR imds ec2 l_init))
    as HZ.
  unfold setup.
  set (l1 := discover ParseCIDR imds ec2 l_init) in *.
  set (l2 := envOverride Getenv l1) in *.
  assert (Hl2 : table l2 (currentAvailabilityZoneId l2)
                = inventoryRanges ParseCIDR imds ec2
                /\ forall z, z <> currentAvailabilityZoneId l2 ->
                             Zones l2 !! z = None).
  { destruct (discoveryYields (imds tt)) eqn:Hd.
    - assert (Heq : currentAvailabilityZoneId l2 = currentAvailabilityZoneId l1)
        by congruence.
      rewrite Heq. unfold table in *. rewrite HZ. auto.
    - rewrite (Hinit eq_refl) in HZ, Ht.
      unfold table. rewrite HZ. simpl.
      split; [|intros z _; apply lookup_empty].
      unfold inventoryRanges. now rewrite Hd. }
  destruct Hl2 as [Ht2 Ho2].
  destruct (String.eqb (currentAvailabilityZoneId l2) "") eqn:Hempty.
  - apply String.eqb_eq in Hempty. simpl.
    rewrite Hempty in *. rewrite staticRanges_unset, app_nil_r. auto.
  - rewrite install_l_final.
    pose proof (fold_processStatement_registry corefile l2) as H.
    cbv zeta in H. destruct H as (Ht3 & Ho3 & Hid3).
    rewrite Hid3, Ht3, Ht2. split; [reflexivity|].
    intros z Hz. rewrite (Ho3 z Hz). now apply Ho2.
Qed.

End SetupRegistry.


(** X14. [setup] registers the plugin exactly when the current zone ends
    with at least one range, and then exactly once; the handler it
    registers is the value [setup] built, with the registry and the zone
    identifier unchanged, the next handler of the chain as [Next] and
    [HasSynced] set. *)
Theorem setup_installs_iff (ParseCIDR : string -> option net.IPNet)
    imds ec2 Getenv corefile :
  let res := setup ParseCIDR imds ec2 Getenv corefile in
  let id := currentAvailabilityZoneId (l_final res) in
  Plugin res = match table (l_final res) id with
               | [] => []
               | _ :: _ => [pluginOf (l_final res)]
               end
  /\ (forall p next,
        In p (Plugin res) ->
        Next (p next) = next /\ HasSynced (p next) = true
        /\ Zones (p next) = Zones (l_final res)
        /\ currentAvailabilityZoneId (p next) = id
        /\ table (p next) id <> []).
Proof.
  simpl.
  assert (Hplugin :
            Plugin (setup ParseCIDR imds ec2 Getenv corefile)
            = match table (l_final (setup ParseCIDR imds ec2 Getenv corefile))
                      (currentAvailabilityZoneId
                         (l_final (setup ParseCIDR imds ec2 Getenv corefile)))
              with
              | [] => []
              | _ :: _ =>
                  [pluginOf (l_final (setup ParseCIDR imds ec2 Getenv corefile))]
              end).
  { destruct (setup_registry ParseCIDR imds ec2 Getenv corefile) as [Ht _].
    revert Ht. unfold setup.
    destruct (String.eqb _ "") eqn:Hempty.
    - apply String.eqb_eq in Hempty. simpl. rewrite Hempty.
      rewrite staticRanges_unset, app_nil_r.
      intros ->.
      assert (Hd : discoveryYields (imds tt) = false).
      { pose proof (envOverride_discover_id ParseCIDR imds ec2 Getenv) as Hid.
        rewrite Hempty in Hid.
        destruct (discoveryYields (imds tt)) eqn:Hd; [exfalso|reflexivity].
        apply discoveryYields_nonempty in Hd. simpl in Hid. congruence. }
      unfold inventoryRanges. now rewrite Hd.
    - intros _. unfold install.
      set (l3 := fold_left (processStatement ParseCIDR) corefile _).
      destruct (Zones l3 !! currentAvailabilityZoneId l3) as [zone|] eqn:Hz.
      + destruct (CIDRs zone) as [|c cs] eqn:Hc; simpl;
          unfold table; simpl; rewrite Hz; simpl; now rewrite Hc.
      + simpl. unfold table. simpl. now rewrite Hz. }
  split; [exact Hplugin|].
  intros p next Hin. rewrite Hplugin in Hin.
  destruct (table _ _) eqn:Ht; [destruct Hin|].
  destruct Hin as [<-|[]]. simpl. repeat split.
  unfold table in *. simpl. rewrite Ht. discriminate.
Qed.

Lemma setup_installs_iff_witness :
  let res := setup ipv4text.ParseCIDR (mocks.IMDS "use1-az1" "us-east-1")
               mocks.noEC2 mocks.noEnv [["use1-az1"; "192.168.1.0/24"]] in
  Next (pluginOf (l_final res) None) = None
  /\ HasSynced (pluginOf (l_final res) None) = true
  /\ Zones (pluginOf (l_final res) None) = Zones (l_final res)
  /\ currentAvailabilityZoneId (pluginOf (l_final res) None) = "use1-az1"
  /\ table (pluginOf (l_final res) None) "use1-az1" <> [].
Proof.
  intros res.
  destruct (setup_installs_iff ipv4text.ParseCIDR
              (mocks.IMDS "use1-az1" "us-east-1") mocks.noEC2 mocks.noEnv
              [["use1-az1"; "192.168.1.0/24"]]) as [_ Hp].
  apply (Hp (pluginOf (l_final res)) None). left. reflexivity.
Defined.

(** X15. A failed inventory lookup is not fatal and is the same as an
    empty inventory: when the EC2 lookup returns an error, [setup] ends as
    it would with a lookup that returns no subnet, so the zone identifier
    of the metadata lookup is kept and the Corefile alone fills the
    table. *)
Theorem setup_EC2_error_as_empty (ParseCIDR : string -> option net.IPNet)
    imds ec2 Getenv corefile err :
  (ec2 context.Background (imds tt).1.1 (imds tt).1.2).2 = Some err ->
  setup ParseCIDR imds ec2 Getenv corefile
  = setup ParseCIDR imds (fun _ _ _ => ([], None)) Getenv corefile.
Proof.
  intros Herr.
  assert (Hd : discover ParseCIDR imds ec2 l_init
               = discover ParseCIDR imds (fun _ _ _ => ([], None)) l_init).
  { unfold discover. destruct (imds tt) as [[az region] e0]. simpl in *.
    destruct e0; [reflexivity|].
    destruct (negb (String.eqb az "") && negb (String.eqb region ""));
      [|reflexivity].
    destruct (ec2 context.Background az region) as [subnets e1].
    simpl in Herr. now rewrite Herr. }
  unfold setup. now rewrite Hd.
Qed.

Lemma setup_EC2_error_as_empty_witness :
  setup ipv4text.ParseCIDR (mocks.IMDS "use1-az1" "us-east-1") mocks.noEC2
    mocks.noEnv [["use1-az1"; "10.0.2.0/24"]]
  = setup ipv4text.ParseCIDR (mocks.IMDS "use1-az1" "us-east-1")
      (fun _ _ _ => ([], None)) mocks.noEnv [["use1-az1"; "10.0.2.0/24"]].
Proof.
  apply (setup_EC2_error_as_empty ipv4text.ParseCIDR
           (mocks.IMDS "use1-az1" "us-east-1") mocks.noEC2 mocks.noEnv
           [["use1-az1"; "10.0.2.0/24"]] "EC2 not available in test").
  reflexivity.
Defined.

(** X16. Without an identity from the metadata lookup there is no
    inventory lookup: when that lookup fails, or returns an empty
    identifier or an empty region, [setup] is a function of the environment
    variable and the Corefile alone.  It never calls the inventory lookup
    (not even for a zone taken from AWS_ZONE_ID), and an identifier
    returned together with an empty region is discarded. *)
Theorem setup_without_discovery (ParseCIDR : string -> option net.IPNet)
    imds imds' ec2 ec2' Getenv corefile :
  discoveryYields (imds tt) = false ->
  discoveryYields (imds' tt) = false ->
  setup ParseCIDR imds ec2 Getenv corefile
  = setup ParseCIDR imds' ec2' Getenv corefile
  /\ table (l_final (setup ParseCIDR imds ec2 Getenv corefile))
       (currentAvailabilityZoneId
          (l_final (setup ParseCIDR imds ec2 Getenv corefile)))
     = staticRanges ParseCIDR
         (currentAvailabilityZoneId
            (l_final (setup ParseCIDR imds ec2 Getenv corefile))) corefile.
Proof.
  intros Hd Hd'. split.
  - unfold setup.
    now rewrite (discover_nothing ParseCIDR imds ec2 Hd),
      (discover_nothing ParseCIDR imds' ec2' Hd').
  - destruct (setup_registry ParseCIDR imds ec2 Getenv corefile) as [Ht _].
    rewrite Ht. unfold inventoryRanges. now rewrite Hd.
Qed.

Lemma setup_without_discovery_witness :
  let blankRegion := fun _ : unit => ("use1-az1", "", @None Error) in
  let subnets := mocks.EC2 [mocks.subnet "subnet-1" "10.0.1.0/24"] in
  setup ipv4text.ParseCIDR blankRegion subnets (mocks.Env "use1-az2")
    [["use1-az2"; "10.0.2.0/24"]]
  = setup ipv4text.ParseCIDR mocks.noIMDS mocks.noEC2 (mocks.Env "use1-az2")
      [["use1-az2"; "10.0.2.0/24"]].
Proof.
  intros blankRegion subnets.
  apply (setup_without_discovery ipv4text.ParseCIDR blankRegion mocks.noIMDS
           subnets mocks.noEC2 (mocks.Env "use1-az2")
           [["use1-az2"; "10.0.2.0/24"]]); reflexivity.
Defined.



Lemma fold_processStatement_filter (ParseCIDR : string -> option net.IPNet)
    corefile :
  forall l,
    fold_left (processStatement ParseCIDR) corefile l
    = fold_left (processStatement ParseCIDR)
        (List.filter (namesZone (currentAvailabilityZoneId l)) corefile) l.
Proof.
  induction corefile as [|args rest IH]; intros l; simpl; [reflexivity|].
  destruct (namesZone (currentAvailabilityZoneId l) args) eqn:Hn; simpl.
  - rewrite IH. now rewrite processStatement_id.
  - rewrite (processStatement_skip ParseCIDR l args Hn). apply IH.
Qed.

(** X18. [setup] reads the Corefile through the statements that name the
    current zone and carry at least one argument after the name: every
    other statement (another zone, a zone name alone, an empty line of
    arguments) can be removed, wherever it stands, without changing what
    [setup] builds and installs. *)
Theorem setup_ignores_other_statements
    (ParseCIDR : string -> option net.IPNet) imds ec2 Getenv corefile :
  let id := currentAvailabilityZoneId
              (l_final (setup ParseCIDR imds ec2 Getenv corefile)) in
  setup ParseCIDR imds ec2 Getenv corefile
  = setup ParseCIDR imds ec2 Getenv (List.filter (namesZone id) corefile).
Proof.
  simpl.
  assert (Hid : currentAvailabilityZoneId
                  (l_final (setup ParseCIDR imds ec2 Getenv corefile))
                = currentAvailabilityZoneId
                    (envOverride Getenv (discover ParseCIDR imds ec2 l_init))).
  { unfold setup. destruct (String.eqb _ ""); [reflexivity|].
    now rewrite install_l_final, fold_processStatement_id. }
  rewrite Hid. unfold setup.
  destruct (String.eqb _ ""); [reflexivity|].
  now rewrite (fold_processStatement_filter ParseCIDR corefile).
Qed.

(** X19. [getConfigFromIMDSv2] returns either an error with both strings
    empty, or no error with an identifier that matches the zone pattern and
    the trimmed region; it never returns an identifier that fails the
    pattern, never a value together with an error, and the region is not
    requested when the identifier is refused.  The region itself is not
    checked: it can come back empty, and then [setup] does not take the
    identifier. *)
Theorem getConfigFromIMDSv2_result (TrimSpace : string -> string) aws :
  let ctx := context.WithTimeout context.Background imdsTimeout in
  let res := getConfigFromIMDSv2 TrimSpace aws tt in
  ((exists err, res = ("", "", Some err))
   \/ (exists azIDBytes regionBytes,
         GetMetadata aws ctx "placement/availability-zone-id"
         = Content (inr azIDBytes)
         /\ GetMetadata aws ctx "placement/region" = Content (inr regionBytes)
         /\ regexp.MatchString awsZoneIDPattern (TrimSpace azIDBytes) = true
         /\ res = (TrimSpace azIDBytes, TrimSpace regionBytes, None)))
  /\ (forall azIDBytes region,
        GetMetadata aws ctx "placement/availability-zone-id"
        = Content (inr azIDBytes) ->
        regexp.MatchString awsZoneIDPattern (TrimSpace azIDBytes) = false ->
        LoadDefaultConfig aws ctx = None ->
        res = ("", "", Some ("fetched AZ ID '" ++ TrimSpace azIDBytes
                             ++ "' from IMDS has an invalid format")%string)
        /\ getConfigFromIMDSv2 TrimSpace
             {| LoadDefaultConfig := LoadDefaultConfig aws;
                GetMetadata := fun c path =>
                  if String.eqb path "placement/region" then region
                  else GetMetadata aws c path;
                DescribeSubnets := DescribeSubnets aws |} tt = res)
  /\ (discoveryYields res = true <-> res.2 = None /\ res.1.2 <> "").
Proof.
  simpl. split; [|split].
  - unfold getConfigFromIMDSv2.
    destruct (LoadDefaultConfig aws _); [left; eauto|].
    destruct (GetMetadata aws _ "placement/availability-zone-id")
      as [err|[err|azIDBytes]]; [left; eauto|left; eauto|].
    destruct (regexp.MatchString awsZoneIDPattern (TrimSpace azIDBytes))
      eqn:Hm; simpl; [|left; eauto].
    destruct (GetMetadata aws _ "placement/region")
      as [err|[err|regionBytes]]; [left; eauto|left; eauto|].
    right. exists azIDBytes, regionBytes. auto.
  - intros azIDBytes region Haz Hm Hcfg. unfold getConfigFromIMDSv2. simpl.
    rewrite Hcfg, Haz, Hm. simpl. auto.
  - destruct (getConfigFromIMDSv2 TrimSpace aws tt) as [[az region] err] eqn:E.
    unfold discoveryYields. simpl.
    destruct err as [err|].
    + split; [discriminate|]. intros [H _]. discriminate.
    + apply getConfigFromIMDSv2_valid in E.
      assert (Haz : String.eqb az "" = false).
      { destruct (String.eqb az "") eqn:Hz; [|reflexivity].
        apply String.eqb_eq in Hz. subst az. discriminate. }
      rewrite Haz. simpl.
      destruct (String.eqb region "") eqn:Hr; simpl.
      * apply String.eqb_eq in Hr. split; [discriminate|]. intros [_ H].
        contradiction.
      * apply String.eqb_neq in Hr. split; auto.
Qed.

(** * The zone pattern *)

Lemma nullable_lang r : regexp.nullable r = true <-> lang r "".
Proof.
  induction r as [| |c|lo hi|r1 IH1 r2 IH2|r1 IH1 r2 IH2]; simpl.
  - split; [discriminate|tauto].
  - split; auto.
  - split; discriminate.
  - split; [discriminate|]. intros (c & Hc & _). discriminate.
  - rewrite andb_true_iff, IH1, IH2. split.
    + intros [H1 H2]. now exists "", "".
    + intros (s1 & s2 & Hs & H1 & H2).
      destruct s1; [|discriminate]. destruct s2; [|discriminate]. auto.
  - rewrite orb_true_iff, IH1, IH2. tauto.
Qed.

Lemma derive_lang c r :
  forall s, lang (regexp.derive c r) s <-> lang r (String c s).
Proof.
  induction r as [| |c'|lo hi|r1 IH1 r2 IH2|r1 IH1 r2 IH2]; intros s; simpl.
  - tauto.
  - split; [tauto|discriminate].
  - destruct (Ascii.eqb c c') eqn:E; simpl.
    + apply Ascii.eqb_eq in E. subst c'. split; intros H; congruence.
    + apply Ascii.eqb_neq in E. split; [tauto|]. intros [= H _]. contradiction.
  - destruct (regexp.inClass lo hi c) eqn:E; simpl.
    + split.
      * intros ->. now exists c.
      * intros (c0 & [= <- ->] & _). reflexivity.
    + split; [tauto|]. intros (c0 & [= <- _] & Hc). congruence.
  - destruct (regexp.nullable r1) eqn:Hn; simpl.
    + split.
      * intros [(s1 & s2 & -> & H1 & H2)|H].
        -- exists (String c s1), s2. split; [reflexivity|].
           split; [now apply IH1|assumption].
        -- exists "", (String c s). split; [reflexivity|].
           split; [now apply nullable_lang|now apply IH2].
      * intros (s1 & s2 & Hs & H1 & H2). destruct s1 as [|c1 s1].
        -- change (String c s = s2) in Hs. subst s2. right. now apply IH2.
        -- change (String c s = String c1 (s1 ++ s2)%string) in Hs.
           injection Hs as <- ->. left.
           exists s1, s2. split; [reflexivity|].
           split; [now apply IH1|assumption].
    + split.
      * intros (s1 & s2 & -> & H1 & H2).
        exists (String c s1), s2. split; [reflexivity|].
        split; [now apply IH1|assumption].
      * intros (s1 & s2 & Hs & H1 & H2). destruct s1 as [|c1 s1].
        -- apply nullable_lang in H1. congruence.
        -- change (String c s = String c1 (s1 ++ s2)%string) in Hs.
           injection Hs as <- ->.
           exists s1, s2. split; [reflexivity|].
           split; [now apply IH1|assumption].
  - rewrite IH1, IH2. tauto.
Qed.

(** The matcher decides the language of the pattern. *)
Lemma MatchString_lang r s : regexp.MatchString r s = true <-> lang r s.
Proof.
  unfold regexp.MatchString. revert r.
  induction s as [|c s IH]; intros r; simpl.
  - apply nullable_lang.
  - rewrite IH. apply derive_lang.
Qed.

Lemma append_cons c s1 s2 :
  (String c s1 ++ s2)%string = String c (s1 ++ s2)%string.
Proof. reflexivity. Qed.

Lemma append_nil s : ("" ++ s)%string = s.
Proof. reflexivity. Qed.

Lemma lang_Lit t s : lang (regexp.Lit t) s <-> s = t.
Proof.
  revert s. induction t as [|c t IH]; intros s; simpl; [tauto|].
  split.
  - intros (s1 & s2 & -> & -> & H2). apply IH in H2. now subst s2.
  - intros ->. exists (String c ""), t. split; [reflexivity|].
    split; [reflexivity|now apply IH].
Qed.

Lemma lang_Repeat_lower max :
  forall min s,
    (min <= max)%nat ->
    lang (regexp.Repeat (regexp.CharClass "a" "z") min max) s
    <-> allLower s /\ (min <= String.length s <= max)%nat.
Proof.
  induction max as [|max IH]; intros min s Hle.
  - assert (min = 0%nat) by lia. subst min. simpl. split.
    + intros ->. simpl. split; [exact I|lia].
    + intros [_ Hlen]. destruct s; [reflexivity|simpl in Hlen; lia].
  - destruct min as [|min]; cbn [regexp.Repeat regexp.Quest lang].
    + split.
      * intros [(s1 & s2 & -> & (c & -> & Hc) & H2)| ->].
        -- apply IH in H2; [|lia]. destruct H2 as [Hall Hlen].
           rewrite append_cons, append_nil. simpl. repeat split; auto; lia.
        -- simpl. split; [exact I|lia].
      * intros [Hall Hlen]. destruct s as [|c s]; [now right|].
        left. destruct Hall as [Hc Hall]. simpl in Hlen.
        exists (String c ""), s. split; [reflexivity|].
        split; [now exists c|]. apply IH; [lia|]. split; [assumption|lia].
    + split.
      * intros (s1 & s2 & -> & (c & -> & Hc) & H2).
        apply IH in H2; [|lia]. destruct H2 as [Hall Hlen].
        rewrite append_cons, append_nil. simpl. repeat split; auto; lia.
      * intros [Hall Hlen].
        destruct s as [|c s]; [simpl in Hlen; lia|].
        destruct Hall as [Hc Hall]. simpl in Hlen.
        exists (String c ""), s. split; [reflexivity|].
        split; [now exists c|]. apply IH; [lia|]. split; [assumption|lia].
Qed.

(** X20. The identifiers the zone pattern accepts, exactly: [MatchString]
    holds of a text if and only if the text is two to four lower-case
    letters, a digit, optionally a dash with three lower-case letters and a
    digit, and then [-az] and a digit, with nothing before or after (so
    no surrounding white space, no upper case, and never the empty
    text). *)
Theorem awsZoneIDPattern_shape (s : string) :
  regexp.MatchString awsZoneIDPattern s = true <-> zoneIDShape s.
Proof.
  rewrite MatchString_lang. unfold awsZoneIDPattern, zoneIDShape.
  cbv zeta. cbn [lang regexp.Quest].
  split.
  - intros (s1 & s2 & -> & H1 & s3 & s4 & -> & (d & -> & Hd)
            & s5 & s6 & -> & Hsub & s7 & s8 & -> & H7 & z & -> & Hz).
    apply lang_Repeat_lower in H1; [|lia]. destruct H1 as [Hall Hlen].
    apply lang_Lit in H7. subst s7.
    exists s1, d, s5, z. repeat split; try assumption; try lia.
    destruct Hsub as [(t1 & t2 & -> & -> & t3 & t4 & -> & H3 & d' & -> & Hd')
                     | ->]; [|now left].
    right. apply lang_Repeat_lower in H3; [|lia].
    destruct H3 as [Hall3 Hlen3].
    destruct t3 as [|a [|b [|c [|x t3]]]]; simpl in Hlen3; try lia.
    destruct Hall3 as (Ha & Hb & Hc & _).
    exists a, b, c, d'. now repeat split.
  - intros (letters & d & sub & z & -> & Hall & Hlen & Hd & Hz & Hsub).
    exists letters, (String d (sub ++ "-az" ++ String z ""))%string.
    split; [reflexivity|]. split; [apply lang_Repeat_lower; [lia|now split]|].
    exists (String d ""), (sub ++ "-az" ++ String z "")%string.
    split; [reflexivity|]. split; [now exists d|].
    exists sub, ("-az" ++ String z "")%string.
    split; [reflexivity|]. split.
    + destruct Hsub as [->|(a & b & c & d' & -> & Ha & Hb & Hc & Hd')];
        [now right|].
      left. exists "-", (String a (String b (String c (String d' "")))).
      split; [reflexivity|]. split; [reflexivity|].
      exists (String a (String b (String c ""))), (String d' "").
      split; [reflexivity|]. split.
      * apply lang_Repeat_lower; [lia|]. simpl. repeat split; auto; lia.
      * now exists d'.
    + exists "-az", (String z ""). split; [reflexivity|].
      split; [now apply lang_Lit|now exists z].
Qed.

Lemma awsZoneIDPattern_shape_witness :
  regexp.MatchString awsZoneIDPattern "usw2-lax1-az1" = true.
Proof.
  apply (proj2 (awsZoneIDPattern_shape "usw2-lax1-az1")).
  exists "usw", "2"%char, "-lax1", "1"%char.
  split; [reflexivity|]. split; [now repeat split|].
  split; [simpl; lia|]. split; [reflexivity|]. split; [reflexivity|].
  right. exists "l"%char, "a"%char, "x"%char, "1"%char. now repeat split.
Defined.

(** * The identifier of an installed plugin *)

(** X21. With the metadata lookup of the production build, whatever the
    cloud services answer and whatever the environment and the Corefile
    hold, a plugin that [setup] installs has a current zone identifier
    that is not empty and matches the zone pattern. *)
Theorem production_plugin_zone_shape
    (ParseCIDR : string -> option net.IPNet) (TrimSpace : string -> string)
    aws ec2 Getenv corefile p next :
  In p (Plugin (setup ParseCIDR (getConfigFromIMDSv2 TrimSpace aws) ec2
                  Getenv corefile)) ->
  currentAvailabilityZoneId (p next) <> ""
  /\ regexp.MatchString awsZoneIDPattern (currentAvailabilityZoneId (p next))
     = true.
Proof.
  intros Hin.
  pose proof (production_zone_id_matches ParseCIDR TrimSpace aws ec2 Getenv)
    as Hid.
  cbv zeta in Hid. revert Hin. unfold setup.
  destruct (String.eqb _ "") eqn:Hempty; [intros []|].
  apply String.eqb_neq in Hempty.
  destruct Hid as [Hid|Hid]; [contradiction|].
  unfold install.
  set (l3 := fold_left (processStatement ParseCIDR) corefile _).
  assert (Hl3 : currentAvailabilityZoneId l3
                = currentAvailabilityZoneId
                    (envOverride Getenv
                       (discover ParseCIDR (getConfigFromIMDSv2 TrimSpace aws)
                          ec2 l_init)))
    by apply fold_processStatement_id.
  destruct (Zones l3 !! currentAvailabilityZoneId l3) as [zone|];
    [|intros []].
  destruct (Nat.ltb 0 (length (CIDRs zone))); [|intros []].
  intros [<-|[]]. simpl. rewrite Hl3. now split.
Qed.

Lemma production_plugin_zone_shape_witness :
  let aws := cloud.aws "use1-az1" "us-east-1" in
  let res := setup ipv4text.ParseCIDR
               (getConfigFromIMDSv2 cloud.trimmed aws)
               (getSubnetsFromEC2 aws) mocks.noEnv
               [["use1-az1"; "192.168.1.0/24"]] in
  currentAvailabilityZoneId (pluginOf (l_final res) None) <> ""
  /\ regexp.MatchString awsZoneIDPattern
       (currentAvailabilityZoneId (pluginOf (l_final res) None)) = true.
Proof.
  intros aws res.
  apply (production_plugin_zone_shape ipv4text.ParseCIDR cloud.trimmed aws
           (getSubnetsFromEC2 aws) mocks.noEnv
           [["use1-az1"; "192.168.1.0/24"]] (pluginOf (l_final res)) None).
  left. reflexivity.
Defined.

Lemma getConfigFromIMDSv2_result_witness :
  getConfigFromIMDSv2 cloud.trimmed (cloud.aws "us-east-1a" "us-east-1") tt
  = ("", "", Some "fetched AZ ID 'us-east-1a' from IMDS has an invalid format")
  /\ getConfigFromIMDSv2 cloud.trimmed
       {| LoadDefaultConfig :=
            LoadDefaultConfig (cloud.aws "us-east-1a" "us-east-1");
          GetMetadata := fun c path =>
            if String.eqb path "placement/region"
            then GetMetadataError "unreachable"
            else GetMetadata (cloud.aws "us-east-1a" "us-east-1") c path;
          DescribeSubnets :=
            DescribeSubnets (cloud.aws "us-east-1a" "us-east-1") |} tt
     = getConfigFromIMDSv2 cloud.trimmed (cloud.aws "us-east-1a" "us-east-1")
         tt.
Proof.
  destruct (getConfigFromIMDSv2_result cloud.trimmed
              (cloud.aws "us-east-1a" "us-east-1")) as (_ & Hrefused & _).
  apply (Hrefused "us-east-1a" (GetMetadataError "unreachable"));
    reflexivity.
Defined.

